(** * CenterCrop: a shallow embedding of
      kornia/augmentation/_2d/geometric/center_crop.py

    The operator crops the centre of a batch of images, either by slicing
    the tensor or by warping it with a projective transform.  The file
    models the class [CenterCrop] with its constructor and its four
    methods, the few tensor operations they call, and states the
    properties of the operator over that model. *)

From Stdlib Require Import String Ascii ZArith QArith List Bool Lia.
Import ListNotations.

Set Implicit Arguments.

Local Open Scope Z_scope.

(* ================================================================== *)
(** ** Exceptions and fallible computations *)

(** The Python exceptions the operator and the tensor operations raise,
    each with its message. *)
Inductive exception : Type :=
| Exception (msg : string)
| NotImplementedError (msg : string)
| IndexError (msg : string)
| RuntimeError (msg : string)
| TypeError (msg : string)
| KeyError (msg : string)
| ValueError (msg : string).

(** A call either returns a value or raises. *)
Inductive result (A : Type) : Type :=
| Ok (a : A)
| Raise (e : exception).

Arguments Ok {A} a.
Arguments Raise {A} e.

Definition bind {A B : Type} (c : result A) (k : A -> result B) : result B :=
  match c with
  | Ok a => k a
  | Raise e => Raise e
  end.

Notation "x <- c ;; k" := (bind c (fun x => k))
  (at level 61, c at next level, right associativity).

(** [mapM f l] runs [f] over [l] from left to right and stops at the first
    exception. *)
Fixpoint mapM {A B : Type} (f : A -> result B) (l : list A) : result (list B) :=
  match l with
  | [] => Ok []
  | a :: l' => b <- f a ;; bs <- mapM f l' ;; Ok (b :: bs)
  end.

(** [mentions s m]: the text [s] occurs in the message [m]. *)
Definition mentions (s m : string) : Prop :=
  exists pre post : string, m = (pre ++ s ++ post)%string.

(* ================================================================== *)
(** ** Python and tensor-library operations *)

Module Py.

(** A slice bound as Python clamps it for a sequence of length [len]:
    a negative bound counts from the end. *)
Definition clamp (len i : Z) : Z :=
  if i <? 0 then Z.max (i + len) 0 else Z.min i len.

(** [l[start:stop]]. *)
Definition slice {A : Type} (start stop : Z) (l : list A) : list A :=
  let len := Z.of_nat (length l) in
  let a := clamp len start in
  let b := clamp len stop in
  firstn (Z.to_nat (b - a)) (skipn (Z.to_nat a) l).

(** [l[i]]: a negative index counts from the end, and an index outside
    the sequence raises IndexError. *)
Definition index {A : Type} (l : list A) (i : Z) : result A :=
  let len := Z.of_nat (length l) in
  let j := if i <? 0 then i + len else i in
  if (j <? 0) || (len <=? j) then Raise (IndexError "index out of range")
  else match nth_error l (Z.to_nat j) with
       | Some a => Ok a
       | None => Raise (IndexError "index out of range")
       end.

(** [range(n)]. *)
Definition range (n : Z) : list Z :=
  map Z.of_nat (seq 0 (Z.to_nat n)).

(** The value of a 64-bit signed integer after an operation that
    overflowed: numpy's int64 arithmetic wraps around. *)
Definition wrap64 (z : Z) : Z :=
  (z + 2 ^ 63) mod 2 ^ 64 - 2 ^ 63.

End Py.

Module Torch.

(** [t.expand(n, -1, ...)] on the first dimension: a dimension that has
    the size asked for stays, a dimension of size one is repeated, any
    other size is refused. *)
Definition expand {A : Type} (n : Z) (t : list A) : result (list A) :=
  if Z.of_nat (length t) =? n then Ok t
  else match t with
       | [x] => if 0 <=? n then Ok (repeat x (Z.to_nat n))
                else Raise (RuntimeError "expand: invalid size")
       | _ => Raise (RuntimeError "expand: sizes do not match")
       end.

End Torch.

(* ================================================================== *)
(** ** Tensors *)

Section Tensors.

(** The element type of an image tensor.  Its arithmetic is floating
    point and is left to the warp kernel below. *)
Variable pixel : Type.

(** A tensor of shape (B, C, H, W): a batch of images, each a list of
    channel planes, each plane a list of rows. *)
Definition Plane : Type := list (list pixel).
Definition Image : Type := list Plane.
Definition Tensor : Type := list Image.

Definition plane_shapeb (H W : Z) (pl : Plane) : bool :=
  (Z.of_nat (length pl) =? H)
  && forallb (fun row => Z.of_nat (length row) =? W) pl.

Definition image_shapeb (C H W : Z) (im : Image) : bool :=
  (Z.of_nat (length im) =? C) && forallb (plane_shapeb H W) im.

Definition shapeb (B C H W : Z) (t : Tensor) : bool :=
  (Z.of_nat (length t) =? B) && forallb (image_shapeb C H W) t.

(** [has_shape B C H W t]: [t.shape == (B, C, H, W)]. *)
Definition has_shape (B C H W : Z) (t : Tensor) : Prop :=
  shapeb B C H W t = true.

(** [t[..., y1:y2, x1:x2]]. *)
Definition slice_hw (y1 y2 x1 x2 : Z) (t : Tensor) : Tensor :=
  map (map (fun pl : Plane => map (Py.slice x1 x2) (Py.slice y1 y2 pl))) t.

(** Broadcasting one dimension of the value of an assignment to the
    size of the place assigned: equal sizes match, a size of one is
    repeated, anything else is refused. *)
Definition broadcast_dim {A : Type} (n : Z) (l : list A) : result (list A) :=
  if Z.of_nat (length l) =? n then Ok l
  else match l with
       | [x] => Ok (repeat x (Z.to_nat n))
       | _ => Raise (RuntimeError "shape mismatch in assignment")
       end.

(** The value [v] of shape (C', h', w') broadcast to (C, h, w). *)
Definition broadcast_image (C h w : Z) (v : Image) : result Image :=
  planes <- mapM (fun pl : Plane =>
                    rows <- mapM (broadcast_dim w) pl ;;
                    broadcast_dim h rows) v ;;
  broadcast_dim C planes.

End Tensors.

(* ================================================================== *)
(** ** Collaborators of the operator *)

Definition upper_ascii (c : ascii) : ascii :=
  let n := nat_of_ascii c in
  if (97 <=? n)%nat && (n <=? 122)%nat then ascii_of_nat (n - 32) else c.

Definition lower_ascii (c : ascii) : ascii :=
  let n := nat_of_ascii c in
  if (65 <=? n)%nat && (n <=? 90)%nat then ascii_of_nat (n + 32) else c.

Fixpoint map_string (f : ascii -> ascii) (s : string) : string :=
  match s with
  | EmptyString => EmptyString
  | String c s' => String (f c) (map_string f s')
  end.

(** [s.upper()] and [s.lower()]. *)
Definition upper : string -> string := map_string upper_ascii.
Definition lower : string -> string := map_string lower_ascii.

(** Modelled from the spec: the enumeration kornia.constants.Resample,
    which is not in this file.  The interpolation mode is given by name or
    as a member of the enumeration (also by its number), and is bilinear
    by default. *)
Module Resample.

Inductive t : Type := NEAREST | BILINEAR | BICUBIC.

Definition name (r : t) : string :=
  match r with
  | NEAREST => "NEAREST"
  | BILINEAR => "BILINEAR"
  | BICUBIC => "BICUBIC"
  end.

(** What the constructor accepts for [resample]. *)
Inductive arg : Type :=
| Name (s : string)
| Value (n : Z)
| Member (r : t).

Definition get (a : arg) : result t :=
  match a with
  | Name s =>
      let u := upper s in
      if (u =? "NEAREST")%string then Ok NEAREST
      else if (u =? "BILINEAR")%string then Ok BILINEAR
      else if (u =? "BICUBIC")%string then Ok BICUBIC
      else Raise (KeyError u)
  | Value n =>
      if n =? 0 then Ok NEAREST
      else if n =? 1 then Ok BILINEAR
      else if n =? 2 then Ok BICUBIC
      else Raise (ValueError "not a valid Resample")
  | Member r => Ok r
  end.

End Resample.

(** Four corners of a box, each an (x, y) point, in the order top-left,
    top-right, bottom-right, bottom-left: one sample of a corner tensor of
    shape (B, 4, 2). *)
Record Quad : Type := mkQuad {
  top_left : Z * Z;
  top_right : Z * Z;
  bottom_right : Z * Z;
  bottom_left : Z * Z
}.

(** The parameter mapping: the entries [params["src"]] and
    [params["dst"]]. *)
Record Params : Type := mkParams {
  src : list Quad;
  dst : list Quad
}.

(** Modelled from the spec: the parameter generator
    random_generator.center_crop_generator, which is not in this file.
    It computes integer, centre-aligned corner coordinates from the input
    height and width and the crop size, once, and gives every sample of
    the batch the same ones.  The offset of the box is half of the margin,
    rounded towards zero. *)
Definition center_crop_generator
    (batch_size height width : Z) (size : Z * Z) : Params :=
  let '(dst_h, dst_w) := size in
  let start_x := (width - dst_w) ÷ 2 in
  let start_y := (height - dst_h) ÷ 2 in
  let end_x := start_x + dst_w - 1 in
  let end_y := start_y + dst_h - 1 in
  let points_src :=
    mkQuad (start_x, start_y) (end_x, start_y) (end_x, end_y) (start_x, end_y) in
  let points_dst :=
    mkQuad (0, 0) (dst_w - 1, 0) (dst_w - 1, dst_h - 1) (0, dst_h - 1) in
  mkParams (repeat points_src (Z.to_nat batch_size))
           (repeat points_dst (Z.to_nat batch_size)).

(** A matrix, as the list of its rows.  The entries are floating-point
    numbers in the program; the model computes with rationals. *)
Definition Matrix : Type := list (list Q).

(** Modelled from the spec: the solver
    kornia.geometry.transform.get_perspective_transform, which is not in
    this file.  It computes the 3x3 projective transform that maps the
    four src corners to the four dst corners by the standard four-point
    solve: the eight unknowns of the matrix (its last entry is one) are
    the solution of the eight linear equations the correspondences give,
    found here by Gauss-Jordan elimination.  One transform is solved for
    each sample of the corner tensors. *)
Module Homography.

Local Open Scope Q_scope.

Definition entry (k : nat) (r : list Q) : Q := nth k r 0.

Definition scale (c : Q) (r : list Q) : list Q :=
  map (fun x => Qred (c * x)) r.

(** [s - c * r]. *)
Definition subtract (c : Q) (r s : list Q) : list Q :=
  map (fun xy : Q * Q => Qred (snd xy - c * fst xy)) (combine r s).

(** The first row with a non-zero entry in column [k], and the others. *)
Fixpoint pick (k : nat) (rows : list (list Q))
  : option (list Q * list (list Q)) :=
  match rows with
  | [] => None
  | r :: rs =>
      if Qeq_bool (entry k r) 0 then
        match pick k rs with
        | Some (p, rest) => Some (p, r :: rest)
        | None => None
        end
      else Some (r, rs)
  end.

(** Gauss-Jordan elimination over the columns [cols]: [done] holds the
    rows that already have their pivot, in the order of the columns. *)
Fixpoint eliminate (cols : list nat) (done rest : list (list Q))
  : option (list (list Q)) :=
  match cols with
  | [] => Some done
  | k :: cols' =>
      match pick k rest with
      | None => None
      | Some (p, rest') =>
          let p' := scale (/ entry k p) p in
          let clear := fun r => subtract (entry k r) p' r in
          eliminate cols' (map clear done ++ [p']) (map clear rest')
      end
  end.

(** The two equations of the correspondence (x, y) -> (u, v). *)
Definition equations (s d : Z * Z) : list (list Q) :=
  let x := inject_Z (fst s) in
  let y := inject_Z (snd s) in
  let u := inject_Z (fst d) in
  let v := inject_Z (snd d) in
  [ [x; y; 1; 0; 0; 0; - (x * u); - (y * u); u];
    [0; 0; 0; x; y; 1; - (x * v); - (y * v); v] ].

Definition system (s d : Quad) : list (list Q) :=
  equations (top_left s) (top_left d)
  ++ equations (top_right s) (top_right d)
  ++ equations (bottom_right s) (bottom_right d)
  ++ equations (bottom_left s) (bottom_left d).

Definition solve (s d : Quad) : result Matrix :=
  match eliminate (seq 0 8) [] (system s d) with
  | Some rows =>
      match map (entry 8) rows with
      | [a; b; c; d'; e; f; g; h] => Ok [[a; b; c]; [d'; e; f]; [g; h; 1]]
      | _ => Raise (RuntimeError "solve: wrong number of unknowns")
      end
  | None => Raise (RuntimeError "solve: the matrix is singular")
  end.

End Homography.

(** The solver on corner tensors of shape (B, 4, 2): the two tensors have
    the same shape, and the result has shape (B, 3, 3). *)
Fixpoint get_perspective_transform (s d : list Quad) : result (list Matrix) :=
  match s, d with
  | [], [] => Ok []
  | q :: s', r :: d' =>
      m <- Homography.solve q r ;;
      ms <- get_perspective_transform s' d' ;;
      Ok (m :: ms)
  | _, _ => Raise (ValueError "Inputs must have the same shape")
  end.

(* ================================================================== *)
(** ** The class CenterCrop *)

(** What the constructor accepts for [size]: an int, a tuple of ints, or a
    value of another type, given by the name of its class. *)
Inductive size_arg : Type :=
| SizeInt (s : Z)
| SizeTuple (t : list Z)
| SizeOther (class_name : string).

(** [self.flags]. *)
Module Flags.
Record t : Type := mk {
  resample : Resample.t;
  cropping_mode : string;
  align_corners : bool;
  size : Z * Z
}.
End Flags.

(** Modelled from the spec: the base class GeometricAugmentationBase2D
    with its constructor, which is not in this file.  The base class
    supplies the probability gating: its constructor keeps the arguments
    it is given, starts with no parameters recorded, and refuses a
    probability that does not lie between 0 and 1 with a ValueError. *)
Module Base.
Record t : Type := mk {
  p : Q;
  return_transform : bool;
  same_on_batch : bool;
  p_batch : Q;
  keepdim : bool;
  _params : option Params
}.

Definition is_probability (x : Q) : bool :=
  Qle_bool 0 x && Qle_bool x 1.

Definition __init__ (p : Q) (return_transform same_on_batch : bool)
    (p_batch : Q) (keepdim : bool) : result t :=
  if is_probability p && is_probability p_batch
  then Ok (mk p return_transform same_on_batch p_batch keepdim None)
  else Raise (ValueError "probability outside of the interval [0, 1]").
End Base.

Record CenterCrop : Type := mkCenterCrop {
  base : Base.t;
  size : Z * Z;
  flags : Flags.t
}.

Definition same_on_batch (self : CenterCrop) : bool :=
  Base.same_on_batch (base self).

Definition invalid_size_type (class_name : string) : string :=
  ("Invalid size type. Expected (int, tuple(int, int). Got: <class '"
   ++ class_name ++ "'>.")%string.

Definition __init__ (size : size_arg) (align_corners : bool)
    (resample : Resample.arg) (return_transform : bool) (p : Q)
    (keepdim : bool) (cropping_mode : string) : result CenterCrop :=
  super <- Base.__init__ 1 return_transform true p keepdim ;;
  self_size <-
    match size with
    | SizeTuple t => a <- Py.index t 0 ;; b <- Py.index t 1 ;; Ok (a, b)
    | SizeInt s => Ok (s, s)
    | SizeOther c => Raise (Exception (invalid_size_type c))
    end ;;
  r <- Resample.get resample ;;
  Ok (mkCenterCrop super self_size
        (Flags.mk r cropping_mode align_corners self_size)).

(** The constructor with every argument but [size] and [cropping_mode]
    left to its default. *)
Definition new (size : size_arg) (cropping_mode : string) : result CenterCrop :=
  __init__ size true (Resample.Name "BILINEAR") false 1 false cropping_mode.

(** [generate_parameters(batch_shape)]. *)
Definition generate_parameters (self : CenterCrop) (batch_shape : list Z)
  : result Params :=
  b <- Py.index batch_shape 0 ;;
  h <- Py.index batch_shape (-2) ;;
  w <- Py.index batch_shape (-1) ;;
  Ok (center_crop_generator b h w (size self)).

Section Operator.

Variable pixel : Type.

(** The interpolation of the warp kernel: the value of the output pixel
    in row [i] and column [j] of a grid of size [out_size], read from
    the input plane through the 2x3 matrix under the given
    interpolation mode, padding policy and alignment. *)
Variable sample :
  string -> string -> bool -> Plane pixel -> Matrix -> Z * Z ->
  nat -> nat -> pixel.

Definition grid (h w : Z) (f : nat -> nat -> pixel) : Plane pixel :=
  map (fun i => map (fun j => f i j) (seq 0 (Z.to_nat w)))
      (seq 0 (Z.to_nat h)).

(** Modelled from the spec: the warp kernel
    kornia.geometry.transform.crop_by_transform_mat, which is not in
    this file.  It warps every plane of the input into an output grid
    of the size asked for, each output pixel found by interpolation
    through the transform of its sample; one transform serves the whole
    batch when only one is given. *)
Definition crop_by_transform_mat (tensor : Tensor pixel)
    (transform : list Matrix) (out_size : Z * Z)
    (mode padding_mode : string) (align_corners : bool)
  : result (Tensor pixel) :=
  ms <- Torch.expand (Z.of_nat (length tensor)) transform ;;
  if (fst out_size <? 0) || (snd out_size <? 0)
  then Raise (RuntimeError "negative output size")
  else Ok (map (fun im_m : Image pixel * Matrix =>
                  map (fun pl : Plane pixel =>
                         grid (fst out_size) (snd out_size)
                           (sample mode padding_mode align_corners pl
                                   (snd im_m) out_size))
                      (fst im_m))
               (combine tensor ms)).

(** [compute_transformation(input, params)]. *)
Definition compute_transformation (input : Tensor pixel) (params : Params)
  : result (list Matrix) :=
  transform <- get_perspective_transform (src params) (dst params) ;;
  Torch.expand (Z.of_nat (length input)) transform.

(** [transform[:, :2, :]]. *)
Definition first_two_rows (transform : list Matrix) : list Matrix :=
  map (Py.slice 0 2) transform.

Definition none_not_subscriptable : exception :=
  TypeError "'NoneType' object is not subscriptable".

(** The integer coordinates the slice branch reads from [src]:
    [x1 = src[:, 0, 0]], [x2 = src[:, 1, 0] + 1], [y1 = src[:, 0, 1]],
    [y2 = src[:, 3, 1] + 1], as arrays of 64-bit integers. *)
Definition x1_of (s : list Quad) : list Z :=
  map (fun q => fst (top_left q)) s.
Definition x2_of (s : list Quad) : list Z :=
  map (fun q => Py.wrap64 (fst (top_right q) + 1)) s.
Definition y1_of (s : list Quad) : list Z :=
  map (fun q => snd (top_left q)) s.
Definition y2_of (s : list Quad) : list Z :=
  map (fun q => Py.wrap64 (snd (bottom_left q) + 1)) s.

(** [input[..., y1[i]:y2[i], x1[i]:x2[i]]] for a tensor [t]. *)
Definition slice_at (s : list Quad) (i : Z) (t : Tensor pixel)
  : result (Tensor pixel) :=
  a <- Py.index (y1_of s) i ;;
  b <- Py.index (y2_of s) i ;;
  c <- Py.index (x1_of s) i ;;
  d <- Py.index (x2_of s) i ;;
  Ok (slice_hw a b c d t).

(** The branch taken when [same_on_batch] holds: one slice of the whole
    batch at the coordinates of the first sample. *)
Definition shared_slice (input : Tensor pixel) (params : Params)
  : result (Tensor pixel) :=
  slice_at (src params) 0 input.

(** The loop of the other branch: [out] is allocated with the shape
    (B, C, h, w) of the flags, and every [out[i]] is assigned the slice
    of sample [i] at its own coordinates.  The loop assigns every
    element of [out], so its contents before the loop play no part. *)
Definition per_sample_loop (self : CenterCrop) (input : Tensor pixel)
    (params : Params) : result (Tensor pixel) :=
  let B := Z.of_nat (length input) in
  let C := Z.of_nat (length (hd [] input)) in
  let '(h, w) := Flags.size (flags self) in
  if (h <? 0) || (w <? 0)
  then Raise (RuntimeError "negative dimension")
  else
    mapM (fun i =>
            v <- slice_at (src params) i (Py.slice i (i + 1) input) ;;
            match v with
            | [im] => broadcast_image C h w im
            | _ => Raise (RuntimeError "shape mismatch in assignment")
            end)
         (Py.range B).

Definition not_supported (mode : string) : string :=
  ("Not supported type: " ++ mode ++ ".")%string.

(** [apply_transform(input, params, transform)]. *)
Definition apply_transform (self : CenterCrop) (input : Tensor pixel)
    (params : Params) (transform : option (list Matrix))
  : result (Tensor pixel) :=
  if (Flags.cropping_mode (flags self) =? "resample")%string then
    match transform with
    | None => Raise none_not_subscriptable
    | Some t =>
        crop_by_transform_mat input (first_two_rows t) (size self)
          (lower (Resample.name (Flags.resample (flags self))))
          "zeros" (Flags.align_corners (flags self))
    end
  else if (Flags.cropping_mode (flags self) =? "slice")%string then
    if same_on_batch self then shared_slice input params
    else per_sample_loop self input params
  else
    Raise (NotImplementedError
             (not_supported (Flags.cropping_mode (flags self)))).

(** The path [apply_transform] takes, which the configuration alone
    decides. *)
Inductive branch : Type :=
| Resampled
| SharedSlice
| PerSampleLoop
| Unsupported.

Definition apply_branch (self : CenterCrop) : branch :=
  if (Flags.cropping_mode (flags self) =? "resample")%string then Resampled
  else if (Flags.cropping_mode (flags self) =? "slice")%string then
    if same_on_batch self then SharedSlice else PerSampleLoop
  else Unsupported.

(** The keyword arguments [inverse_transform] looks up in [**kwargs]. *)
Record overrides : Type := mkOverrides {
  kw_mode : option string;
  kw_align_corners : option bool;
  kw_padding_mode : option string
}.

Definition no_overrides : overrides := mkOverrides None None None.

Definition inverse_not_applicable (mode : string) : string :=
  ("`inverse` is only applicable for resample cropping mode. Got "
   ++ mode ++ ".")%string.

(** [inverse_transform(input, transform, size, **kwargs)]. *)
Definition inverse_transform (self : CenterCrop) (input : Tensor pixel)
    (transform : option (list Matrix)) (size_arg : option (Z * Z))
    (kwargs : overrides) : result (Tensor pixel) :=
  if negb (Flags.cropping_mode (flags self) =? "resample")%string then
    Raise (NotImplementedError
             (inverse_not_applicable (Flags.cropping_mode (flags self))))
  else
    let size' := match size_arg with
                 | None => size self
                 | Some s => s
                 end in
    let mode := match kw_mode kwargs with
                | None => lower (Resample.name (Flags.resample (flags self)))
                | Some m => m
                end in
    let align_corners := match kw_align_corners kwargs with
                         | None => Flags.align_corners (flags self)
                         | Some a => a
                         end in
    let padding_mode := match kw_padding_mode kwargs with
                        | None => "zeros"%string
                        | Some pm => pm
                        end in
    match transform with
    | None => Raise none_not_subscriptable
    | Some t =>
        crop_by_transform_mat input (first_two_rows t) size' mode
          padding_mode align_corners
    end.

End Operator.

(** A matrix of shape (3, 3). *)
Definition is_3x3 (m : Matrix) : Prop :=
  length m = 3%nat /\ Forall (fun row => length row = 3%nat) m.

(* ================================================================== *)
(** ** Values for the worked examples *)

(** A warp that fills its output with zeros.  The examples that reach the
    kernel are about shapes, which do not depend on the interpolation. *)
Definition blank_sample :
  string -> string -> bool -> Plane Z -> Matrix -> Z * Z -> nat -> nat -> Z :=
  fun _ _ _ _ _ _ _ _ => 0.

(** [CenterCrop(s, cropping_mode=mode)], as the constructor builds it. *)
Definition example_op (s : Z) (mode : string) : CenterCrop :=
  mkCenterCrop (Base.mk 1 false true 1 false None) (s, s)
    (Flags.mk Resample.BILINEAR mode true (s, s)).

(** One image of one channel, 4x4; a pixel's value gives its row and
    column. *)
Definition image4 : Tensor Z :=
  [[[[11; 12; 13; 14]; [21; 22; 23; 24]; [31; 32; 33; 34]; [41; 42; 43; 44]]]].

Definition blank2 : Tensor Z := [[[[0; 0]; [0; 0]]]].

(** Two images of one channel, 3x3. *)
Definition two_images : Tensor Z :=
  [ [[[11; 12; 13]; [14; 15; 16]; [17; 18; 19]]];
    [[[21; 22; 23]; [24; 25; 26]; [27; 28; 29]]] ].

(** The matrix of the translation by (tx, ty). *)
Definition translation (tx ty : Z) : Matrix :=
  [[1; 0; inject_Z tx]; [0; 1; inject_Z ty]; [0; 0; 1]]%Q.

(** The corners of the 2x2 box whose top-left pixel is (x, y). *)
Definition unit_box (x y : Z) : Quad :=
  mkQuad (x, y) (x + 1, y) (x + 1, y + 1) (x, y + 1).

(** A parameter mapping whose two samples have different boxes. *)
Definition ragged_params : Params :=
  mkParams [unit_box 0 0; unit_box 1 1] [unit_box 0 0; unit_box 0 0].

(* ================================================================== *)
(** ** Pixels, boxes and slice lengths *)

Section PixelAccess.

Variable pixel : Type.

(** [t[b, c, i, j]], when the four indices are inside the tensor. *)
Definition pixel_at (t : Tensor pixel) (b c i j : nat) : option pixel :=
  match nth_error t b with
  | Some im =>
      match nth_error im c with
      | Some pl =>
          match nth_error pl i with
          | Some row => nth_error row j
          | None => None
          end
      | None => None
      end
  | None => None
  end.

(** [im[:, y1:y2, x1:x2]] for the box [q] of one sample, with the bounds
    the slice branch reads from its corners. *)
Definition crop_image (q : Quad) (im : Image pixel) : Image pixel :=
  map (fun pl : Plane pixel =>
         map (Py.slice (fst (top_left q)) (Py.wrap64 (fst (top_right q) + 1)))
             (Py.slice (snd (top_left q))
                       (Py.wrap64 (snd (bottom_left q) + 1)) pl))
      im.

End PixelAccess.

(** The length of [l[start:stop]] for a sequence of length [len]. *)
Definition slice_len (len start stop : Z) : Z :=
  Z.max 0 (Py.clamp len stop - Py.clamp len start).

(** The box [q] lies inside an image of size (H, W) and has size (h, w). *)
Definition box_fits (H W h w : Z) (q : Quad) : Prop :=
  0 <= snd (top_left q) /\ snd (bottom_left q) + 1 = snd (top_left q) + h
  /\ snd (top_left q) + h <= H
  /\ 0 <= fst (top_left q) /\ fst (top_right q) + 1 = fst (top_left q) + w
  /\ fst (top_left q) + w <= W.

(** An operator whose [same_on_batch] attribute was cleared after its
    construction. *)
Definition per_sample_op (s : Z) (mode : string) : CenterCrop :=
  mkCenterCrop (Base.mk 1 false false 1 false None) (s, s)
    (Flags.mk Resample.BILINEAR mode true (s, s)).

(** A box of size 5x5 that reaches past a 4x4 image. *)
Definition oversize_box : Quad := mkQuad (2, 2) (6, 2) (6, 6) (2, 6).

(* ================================================================== *)
(** * Properties *)

(** ** Results *)

Lemma bind_Ok {A B : Type} (c : result A) (k : A -> result B) (b : B) :
  bind c k = Ok b -> exists a, c = Ok a /\ k a = Ok b.
Proof.
  destruct c as [a | e]; simpl; intros H; [ eauto | discriminate ].
Qed.

Lemma mapM_length {A B : Type} (f : A -> result B) :
  forall (l : list A) (bs : list B), mapM f l = Ok bs -> length bs = length l.
Proof.
  induction l as [| a l IH]; simpl; intros bs H.
  - injection H as <-. reflexivity.
  - apply bind_Ok in H as (b & _ & H).
    apply bind_Ok in H as (bs' & Hbs & H).
    injection H as <-. simpl. f_equal. auto.
Qed.

(** ** Slices and indexing *)

Lemma wrap64_small (z : Z) :
  - 2 ^ 63 <= z < 2 ^ 63 -> Py.wrap64 z = z.
Proof.
  intros Hz. unfold Py.wrap64.
  rewrite Z.mod_small by lia. lia.
Qed.

Lemma clamp_inside (len i : Z) : 0 <= i <= len -> Py.clamp len i = i.
Proof.
  intros Hi. unfold Py.clamp.
  destruct (i <? 0) eqn:E; [ apply Z.ltb_lt in E; lia | lia ].
Qed.

Lemma slice_inside {A : Type} (a b : Z) (l : list A) :
  0 <= a <= b -> b <= Z.of_nat (length l) ->
  Py.slice a b l = firstn (Z.to_nat (b - a)) (skipn (Z.to_nat a) l).
Proof.
  intros Hab Hb. unfold Py.slice.
  rewrite !clamp_inside by lia. reflexivity.
Qed.

Lemma slice_length {A : Type} (a b : Z) (l : list A) :
  0 <= a <= b -> b <= Z.of_nat (length l) ->
  Z.of_nat (length (Py.slice a b l)) = b - a.
Proof.
  intros Hab Hb. rewrite slice_inside by assumption.
  rewrite length_firstn, length_skipn. lia.
Qed.

Lemma forallb_firstn {A : Type} (f : A -> bool) :
  forall (n : nat) (l : list A),
    forallb f l = true -> forallb f (firstn n l) = true.
Proof.
  induction n as [| n IH]; intros [| x l]; simpl; auto.
  intros H. apply andb_true_iff in H as [Hx Hl].
  rewrite Hx. simpl. auto.
Qed.

Lemma forallb_skipn {A : Type} (f : A -> bool) :
  forall (n : nat) (l : list A),
    forallb f l = true -> forallb f (skipn n l) = true.
Proof.
  induction n as [| n IH]; intros [| x l]; simpl; auto.
  intros H. apply andb_true_iff in H as [_ Hl]. auto.
Qed.

Lemma forallb_slice {A : Type} (f : A -> bool) (a b : Z) (l : list A) :
  forallb f l = true -> forallb f (Py.slice a b l) = true.
Proof.
  intros H. unfold Py.slice. apply forallb_firstn, forallb_skipn, H.
Qed.

Lemma forallb_map {A B : Type} (f : B -> bool) (g : A -> B) (l : list A) :
  forallb f (map g l) = forallb (fun a => f (g a)) l.
Proof.
  induction l as [| a l IH]; simpl; [ reflexivity | now rewrite IH ].
Qed.

Lemma forallb_impl {A : Type} (f g : A -> bool) (l : list A) :
  (forall a, f a = true -> g a = true) ->
  forallb f l = true -> forallb g l = true.
Proof.
  intros Hfg. induction l as [| a l IH]; simpl; [ reflexivity | ].
  intros H. apply andb_true_iff in H as [Ha Hl].
  rewrite (Hfg a Ha). simpl. auto.
Qed.

Lemma index_head {A : Type} (x : A) (l : list A) :
  Py.index (x :: l) 0 = Ok x.
Proof.
  unfold Py.index. simpl.
  destruct (Z.pos (Pos.of_succ_nat (length l)) <=? 0) eqn:E;
    [ apply Z.leb_le in E; lia | reflexivity ].
Qed.

Section Shapes.

Variable pixel : Type.

Lemma plane_shape_slice (H W y1 y2 x1 x2 : Z) (pl : Plane pixel) :
  0 <= y1 <= y2 -> y2 <= H -> 0 <= x1 <= x2 -> x2 <= W ->
  plane_shapeb H W pl = true ->
  plane_shapeb (y2 - y1) (x2 - x1)
    (map (Py.slice x1 x2) (Py.slice y1 y2 pl)) = true.
Proof.
  intros Hy Hy2 Hx Hx2 Hpl. unfold plane_shapeb in *.
  apply andb_true_iff in Hpl as [Hlen Hrows].
  apply Z.eqb_eq in Hlen.
  apply andb_true_iff. split.
  - apply Z.eqb_eq. rewrite length_map. apply slice_length; lia.
  - rewrite forallb_map. apply forallb_slice.
    revert Hrows. apply forallb_impl. intros row Hrow.
    apply Z.eqb_eq in Hrow. apply Z.eqb_eq.
    apply slice_length; lia.
Qed.

Lemma shape_slice_hw (B C H W y1 y2 x1 x2 : Z) (t : Tensor pixel) :
  0 <= y1 <= y2 -> y2 <= H -> 0 <= x1 <= x2 -> x2 <= W ->
  has_shape B C H W t ->
  has_shape B C (y2 - y1) (x2 - x1) (slice_hw y1 y2 x1 x2 t).
Proof.
  intros Hy Hy2 Hx Hx2 Ht. unfold has_shape, shapeb, slice_hw in *.
  apply andb_true_iff in Ht as [Hlen Himgs].
  apply andb_true_iff. split.
  - now rewrite length_map.
  - rewrite forallb_map. revert Himgs. apply forallb_impl.
    intros im Him. unfold image_shapeb in *.
    apply andb_true_iff in Him as [HC Hpls].
    apply andb_true_iff. split.
    + now rewrite length_map.
    + rewrite forallb_map. revert Hpls. apply forallb_impl.
      intros pl. now apply plane_shape_slice.
Qed.

End Shapes.

(** ** Broadcasting a batch of matrices *)

Lemma expand_same {A : Type} (t : list A) :
  Torch.expand (Z.of_nat (length t)) t = Ok t.
Proof.
  unfold Torch.expand. now rewrite Z.eqb_refl.
Qed.

Lemma expand_one {A : Type} (x : A) (n : nat) :
  Torch.expand (Z.of_nat n) [x] = Ok (repeat x n).
Proof.
  unfold Torch.expand. simpl length.
  destruct (Z.of_nat 1 =? Z.of_nat n) eqn:E.
  - apply Z.eqb_eq in E. apply Nat2Z.inj in E. now subst n.
  - destruct (0 <=? Z.of_nat n) eqn:E0; [ | apply Z.leb_gt in E0; lia ].
    now rewrite Nat2Z.id.
Qed.

Lemma expand_length {A : Type} (n : Z) (t t' : list A) :
  Torch.expand n t = Ok t' -> Z.of_nat (length t') = n.
Proof.
  unfold Torch.expand. destruct (Z.of_nat (length t) =? n) eqn:E.
  - intros H. injection H as <-. now apply Z.eqb_eq.
  - destruct t as [| x [| y t]]; try discriminate.
    destruct (0 <=? n) eqn:E0; [ | discriminate ].
    intros H. injection H as <-. rewrite repeat_length.
    apply Z.leb_le in E0. lia.
Qed.

Lemma expand_total {A : Type} (n : nat) (t : list A) :
  length t = n \/ length t = 1%nat ->
  exists t', Torch.expand (Z.of_nat n) t = Ok t' /\ length t' = n.
Proof.
  intros [H | H].
  - subst n. exists t. split; [ apply expand_same | reflexivity ].
  - destruct t as [| x [| y t]]; try discriminate.
    exists (repeat x n). split; [ apply expand_one | apply repeat_length ].
Qed.

(** ** The solver on a batch *)

Lemma solve_3x3 (s d : Quad) (m : Matrix) :
  Homography.solve s d = Ok m -> is_3x3 m.
Proof.
  unfold Homography.solve.
  destruct (Homography.eliminate _ _ _) as [rows |]; [ | discriminate ].
  destruct (map _ rows) as [| a [| b [| c [| d' [| e [| f [| g [| h [| ? ?]]]]]]]]];
    try discriminate.
  intros H. injection H as <-. split; [ reflexivity | ].
  repeat constructor.
Qed.

Lemma get_perspective_transform_shape :
  forall (s d : list Quad) (ms : list Matrix),
    get_perspective_transform s d = Ok ms ->
    length ms = length s /\ Forall is_3x3 ms.
Proof.
  induction s as [| q s IH]; intros [| r d] ms; simpl; try discriminate.
  - intros H. injection H as <-. split; [ reflexivity | constructor ].
  - intros H. apply bind_Ok in H as (m & Hm & H).
    apply bind_Ok in H as (ms' & Hms & H). injection H as <-.
    destruct (IH _ _ Hms) as [Hlen Hall]. split.
    + simpl. now f_equal.
    + constructor; [ eapply solve_3x3; eassumption | assumption ].
Qed.

Lemma get_perspective_transform_uniform (s d : Quad) :
  forall n : nat,
    get_perspective_transform (repeat s (S n)) (repeat d (S n))
    = (m <- Homography.solve s d ;; Ok (repeat m (S n))).
Proof.
  induction n as [| n IH].
  - simpl. destruct (Homography.solve s d); reflexivity.
  - change (repeat s (S (S n))) with (s :: repeat s (S n)).
    change (repeat d (S (S n))) with (d :: repeat d (S n)).
    cbn [get_perspective_transform]. rewrite IH.
    destruct (Homography.solve s d); reflexivity.
Qed.

(** ** The constructor *)

Lemma base_init_inv (p : Q) (rt sob : bool) (pb : Q) (kd : bool) (b : Base.t) :
  Base.__init__ p rt sob pb kd = Ok b -> b = Base.mk p rt sob pb kd None.
Proof.
  unfold Base.__init__.
  destruct (Base.is_probability p && Base.is_probability pb);
    [ | discriminate ].
  intros H. now injection H.
Qed.

Lemma base_init_probability (rt sob : bool) (pb : Q) (kd : bool) :
  (0 <= pb <= 1)%Q ->
  Base.__init__ 1 rt sob pb kd = Ok (Base.mk 1 rt sob pb kd None).
Proof.
  intros [H0 H1]. unfold Base.__init__, Base.is_probability.
  rewrite (proj2 (Qle_bool_iff 0 pb) H0), (proj2 (Qle_bool_iff pb 1) H1).
  reflexivity.
Qed.

Lemma init_inv (sz : size_arg) (ac : bool) (rs : Resample.arg) (rt : bool)
    (p : Q) (kd : bool) (mode : string) (self : CenterCrop) :
  __init__ sz ac rs rt p kd mode = Ok self ->
  base self = Base.mk 1 rt true p kd None
  /\ Flags.cropping_mode (flags self) = mode
  /\ Flags.size (flags self) = size self
  /\ Flags.align_corners (flags self) = ac
  /\ Resample.get rs = Ok (Flags.resample (flags self)).
Proof.
  unfold __init__. intros H.
  apply bind_Ok in H as (b & Hb & H).
  apply base_init_inv in Hb.
  apply bind_Ok in H as (s & _ & H).
  apply bind_Ok in H as (r & Hr & H).
  injection H as <-. simpl. auto.
Qed.

Lemma init_same_on_batch (sz : size_arg) (ac : bool) (rs : Resample.arg)
    (rt : bool) (p : Q) (kd : bool) (mode : string) (self : CenterCrop) :
  __init__ sz ac rs rt p kd mode = Ok self -> same_on_batch self = true.
Proof.
  intros H. apply init_inv in H as (Hb & _). unfold same_on_batch.
  now rewrite Hb.
Qed.

Lemma mentions_middle (pre s post : string) :
  mentions s (pre ++ s ++ post)%string.
Proof.
  exists pre, post. reflexivity.
Qed.

Section Kernel.

Variable pixel : Type.
Variable sample :
  string -> string -> bool -> Plane pixel -> Matrix -> Z * Z ->
  nat -> nat -> pixel.

Lemma grid_shape (h w : Z) (f : nat -> nat -> pixel) :
  0 <= h -> 0 <= w -> plane_shapeb h w (grid h w f) = true.
Proof.
  intros Hh Hw. unfold plane_shapeb, grid.
  apply andb_true_iff. split.
  - apply Z.eqb_eq. rewrite length_map, length_seq. lia.
  - rewrite forallb_map. apply forallb_forall. intros i _.
    apply Z.eqb_eq. rewrite length_map, length_seq. lia.
Qed.

Lemma forallb_combine_fst {A B : Type} (f : A -> bool) (g : A * B -> bool) :
  (forall a b, f a = true -> g (a, b) = true) ->
  forall (l : list A) (l' : list B),
    forallb f l = true -> forallb g (combine l l') = true.
Proof.
  intros Hfg. induction l as [| a l IH]; intros [| b l']; simpl; auto.
  intros H. apply andb_true_iff in H as [Ha Hl].
  rewrite (Hfg a b Ha). simpl. auto.
Qed.

Lemma crop_by_transform_mat_shape (B C H W h w : Z) (tensor : Tensor pixel)
    (transform : list Matrix) (mode padding_mode : string) (ac : bool) :
  has_shape B C H W tensor ->
  length transform = length tensor \/ length transform = 1%nat ->
  0 <= h -> 0 <= w ->
  exists out,
    crop_by_transform_mat sample tensor transform (h, w) mode padding_mode ac
    = Ok out
    /\ has_shape B C h w out.
Proof.
  intros Ht Hlen Hh Hw. unfold crop_by_transform_mat.
  destruct (expand_total transform Hlen)
    as (ms & -> & Hms).
  cbn [bind fst snd].
  destruct ((h <? 0) || (w <? 0)) eqn:E.
  { apply orb_true_iff in E as [E | E]; apply Z.ltb_lt in E; lia. }
  eexists. split; [ reflexivity | ].
  unfold has_shape, shapeb in *.
  apply andb_true_iff in Ht as [HB Himgs].
  apply andb_true_iff. split.
  - rewrite length_map, length_combine, Hms, Nat.min_id. exact HB.
  - rewrite forallb_map. revert Himgs. apply forallb_combine_fst.
    intros im m Him. cbn [fst snd]. unfold image_shapeb in *.
    apply andb_true_iff in Him as [HC _].
    apply andb_true_iff. split.
    + now rewrite length_map.
    + rewrite forallb_map. apply forallb_forall. intros pl _.
      now apply grid_shape.
Qed.

Lemma first_two_rows_length (t : list Matrix) :
  length (first_two_rows t) = length t.
Proof.
  apply length_map.
Qed.

End Kernel.

(** ** The generated parameters *)

Lemma generator_src (B H W h w : Z) :
  src (center_crop_generator B H W (h, w))
  = repeat (mkQuad ((W - w) ÷ 2, (H - h) ÷ 2)
                   ((W - w) ÷ 2 + w - 1, (H - h) ÷ 2)
                   ((W - w) ÷ 2 + w - 1, (H - h) ÷ 2 + h - 1)
                   ((W - w) ÷ 2, (H - h) ÷ 2 + h - 1))
           (Z.to_nat B).
Proof. reflexivity. Qed.

Lemma generate_parameters_4d (self : CenterCrop) (B C H W : Z) :
  generate_parameters self [B; C; H; W]
  = Ok (center_crop_generator B H W (size self)).
Proof. reflexivity. Qed.

Lemma half_margin (n m : Z) :
  0 <= m <= n -> 0 <= (n - m) ÷ 2 /\ (n - m) ÷ 2 + m <= n.
Proof.
  intros Hm. rewrite Z.quot_div_nonneg by lia.
  split; [ apply Z.div_pos; lia | ].
  assert ((n - m) / 2 <= n - m) by (apply Z.div_le_upper_bound; lia). lia.
Qed.

Section Forward.

Variable pixel : Type.
Variable sample :
  string -> string -> bool -> Plane pixel -> Matrix -> Z * Z ->
  nat -> nat -> pixel.

Lemma shared_slice_head (input : Tensor pixel) (q : Quad) (rest d : list Quad) :
  shared_slice input (mkParams (q :: rest) d)
  = Ok (slice_hw (snd (top_left q)) (Py.wrap64 (snd (bottom_left q) + 1))
                 (fst (top_left q)) (Py.wrap64 (fst (top_right q) + 1))
                 input).
Proof.
  unfold shared_slice, slice_at, y1_of, y2_of, x1_of, x2_of.
  cbn [src map]. now rewrite !index_head.
Qed.

Lemma apply_transform_slice (self : CenterCrop) (input : Tensor pixel)
    (params : Params) (transform : option (list Matrix)) :
  Flags.cropping_mode (flags self) = "slice"%string ->
  apply_transform sample self input params transform
  = if same_on_batch self then shared_slice input params
    else per_sample_loop self input params.
Proof.
  intros Hmode. unfold apply_transform. now rewrite Hmode.
Qed.

Lemma apply_transform_resample (self : CenterCrop) (input : Tensor pixel)
    (params : Params) (t : list Matrix) :
  Flags.cropping_mode (flags self) = "resample"%string ->
  apply_transform sample self input params (Some t)
  = crop_by_transform_mat sample input (first_two_rows t) (size self)
      (lower (Resample.name (Flags.resample (flags self)))) "zeros"
      (Flags.align_corners (flags self)).
Proof.
  intros Hmode. unfold apply_transform. now rewrite Hmode.
Qed.

(** C2: for an operator the constructor built, with crop size (h, w), and
    an input of shape (B, C, H, W) with h <= H and w <= W, applying the
    transform with the generated parameters returns a tensor of spatial
    size exactly (h, w): in slice mode for every transform argument, in
    resample mode for every batch of matrices that matches the batch. *)
Theorem C2_output_size
    (sz : size_arg) (ac : bool) (rs : Resample.arg) (rt : bool) (p : Q)
    (kd : bool) (mode : string) (self : CenterCrop)
    (input : Tensor pixel) (params : Params) (B C H W h w : Z) :
  __init__ sz ac rs rt p kd mode = Ok self ->
  size self = (h, w) ->
  has_shape B C H W input ->
  1 <= B -> 1 <= h <= H -> 1 <= w <= W -> H < 2 ^ 63 -> W < 2 ^ 63 ->
  generate_parameters self [B; C; H; W] = Ok params ->
  (mode = "slice"%string ->
   forall transform, exists out,
     apply_transform sample self input params transform = Ok out
     /\ has_shape B C h w out)
  /\ (mode = "resample"%string ->
      forall t, length t = length input \/ length t = 1%nat ->
      exists out,
        apply_transform sample self input params (Some t) = Ok out
        /\ has_shape B C h w out).
Proof.
  intros Hinit Hsize Hshape HB Hh Hw HH HW Hgen.
  pose proof Hinit as Hsame. apply init_same_on_batch in Hsame.
  apply init_inv in Hinit as (_ & Hmode & _).
  rewrite generate_parameters_4d, Hsize in Hgen. injection Hgen as <-.
  split; intros ->.
  - intros transform.
    rewrite apply_transform_slice, Hsame by assumption.
    destruct (half_margin (n := H) (m := h)) as [Hy0 Hy1]; [ lia | ].
    destruct (half_margin (n := W) (m := w)) as [Hx0 Hx1]; [ lia | ].
    cbv beta iota zeta delta [center_crop_generator].
    destruct (Z.to_nat B) as [| n] eqn:EB; [ lia | ].
    cbn [repeat]. rewrite shared_slice_head.
    cbn [top_left top_right bottom_left fst snd].
    rewrite !wrap64_small by lia.
    eexists. split; [ reflexivity | ].
    set (y1 := (H - h) ÷ 2) in *. set (x1 := (W - w) ÷ 2) in *.
    pose proof (@shape_slice_hw pixel B C H W y1 (y1 + h - 1 + 1)
                  x1 (x1 + w - 1 + 1) input) as Hcrop.
    replace (y1 + h - 1 + 1 - y1) with h in Hcrop by lia.
    replace (x1 + w - 1 + 1 - x1) with w in Hcrop by lia.
    apply Hcrop; try lia. exact Hshape.
  - intros t Ht.
    rewrite apply_transform_resample, Hsize by assumption.
    apply crop_by_transform_mat_shape with (H := H) (W := W); try lia.
    + exact Hshape.
    + now rewrite first_two_rows_length.
Qed.

End Forward.

Lemma new_example (s : Z) (mode : string) :
  new (SizeInt s) mode = Ok (example_op s mode).
Proof. reflexivity. Qed.

Section Dispatch.

Variable pixel : Type.
Variable sample :
  string -> string -> bool -> Plane pixel -> Matrix -> Z * Z ->
  nat -> nat -> pixel.

Lemma apply_transform_branch (self : CenterCrop) (input : Tensor pixel)
    (params : Params) (transform : option (list Matrix)) :
  apply_transform sample self input params transform
  = match apply_branch self with
    | Resampled =>
        match transform with
        | None => Raise none_not_subscriptable
        | Some t =>
            crop_by_transform_mat sample input (first_two_rows t) (size self)
              (lower (Resample.name (Flags.resample (flags self)))) "zeros"
              (Flags.align_corners (flags self))
        end
    | SharedSlice => shared_slice input params
    | PerSampleLoop => per_sample_loop self input params
    | Unsupported =>
        Raise (NotImplementedError
                 (not_supported (Flags.cropping_mode (flags self))))
    end.
Proof.
  unfold apply_transform, apply_branch.
  destruct (Flags.cropping_mode (flags self) =? "resample")%string;
    [ reflexivity | ].
  destruct (Flags.cropping_mode (flags self) =? "slice")%string;
    [ | reflexivity ].
  destruct (same_on_batch self); reflexivity.
Qed.

(** C1: for an input of shape (1, 1, 4, 4) and [CenterCrop(2)], the
    generated box is rows 1-2 and columns 1-2 of the grid.  In slice mode
    (the default) the operator returns exactly the four pixels of that
    centre block, whatever transform it is handed.  In resample mode the
    transform solved from the box is the translation by (-1, -1), and the
    output is the 2x2 grid the bilinear, zero-padded, corner-aligned warp
    reads through it. *)
Theorem C1_center_block
    (a00 a01 a02 a03 a10 a11 a12 a13 a20 a21 a22 a23 a30 a31 a32 a33 : pixel) :
  let input : Tensor pixel :=
    [[[[a00; a01; a02; a03]; [a10; a11; a12; a13];
       [a20; a21; a22; a23]; [a30; a31; a32; a33]]]] in
  let box := mkQuad (1, 1) (2, 1) (2, 2) (1, 2) in
  (exists self params,
      new (SizeInt 2) "slice" = Ok self
      /\ generate_parameters self [1; 1; 4; 4] = Ok params
      /\ src params = [box]
      /\ forall transform,
          apply_transform sample self input params transform
          = Ok [[[[a11; a12]; [a21; a22]]]])
  /\ (exists self params,
         new (SizeInt 2) "resample" = Ok self
         /\ generate_parameters self [1; 1; 4; 4] = Ok params
         /\ src params = [box]
         /\ compute_transformation input params = Ok [translation (-1) (-1)]
         /\ apply_transform sample self input params
              (Some [translation (-1) (-1)])
            = Ok [map (fun pl =>
                         grid 2 2
                           (sample "bilinear" "zeros" true pl
                              [[1; 0; -1 # 1]; [0; 1; -1 # 1]]%Q (2, 2)))
                      [[[a00; a01; a02; a03]; [a10; a11; a12; a13];
                        [a20; a21; a22; a23]; [a30; a31; a32; a33]]]]).
Proof.
  intros input box. split.
  - exists (example_op 2 "slice"), (center_crop_generator 1 4 4 (2, 2)).
    repeat split; reflexivity.
  - exists (example_op 2 "resample"), (center_crop_generator 1 4 4 (2, 2)).
    repeat split; reflexivity.
Qed.

(** C3: when the cropping mode is not "resample", [inverse_transform]
    raises NotImplementedError for every input, transform, size and
    keyword arguments; the message names the mode that is required,
    "resample", and the mode the operator has. *)
Theorem C3_inverse_needs_resample (self : CenterCrop) (input : Tensor pixel)
    (transform : option (list Matrix)) (size_arg : option (Z * Z))
    (kwargs : overrides) :
  Flags.cropping_mode (flags self) <> "resample"%string ->
  inverse_transform sample self input transform size_arg kwargs
  = Raise (NotImplementedError
             (inverse_not_applicable (Flags.cropping_mode (flags self))))
  /\ mentions "resample" (inverse_not_applicable (Flags.cropping_mode (flags self)))
  /\ mentions (Flags.cropping_mode (flags self))
       (inverse_not_applicable (Flags.cropping_mode (flags self))).
Proof.
  intros Hmode. apply String.eqb_neq in Hmode.
  unfold inverse_transform. rewrite Hmode. cbn [negb].
  split; [ reflexivity | split ].
  - exists "`inverse` is only applicable for "%string,
      (" cropping mode. Got " ++ Flags.cropping_mode (flags self) ++ ".")%string.
    reflexivity.
  - apply mentions_middle.
Qed.

(** C7: when the cropping mode is neither "resample" nor "slice",
    [apply_transform] raises NotImplementedError for every input,
    parameters and transform, with the message "Not supported type: "
    followed by the mode. *)
Theorem C7_unknown_mode (self : CenterCrop) (input : Tensor pixel)
    (params : Params) (transform : option (list Matrix)) :
  Flags.cropping_mode (flags self) <> "resample"%string ->
  Flags.cropping_mode (flags self) <> "slice"%string ->
  apply_transform sample self input params transform
  = Raise (NotImplementedError
             (not_supported (Flags.cropping_mode (flags self))))
  /\ mentions (Flags.cropping_mode (flags self))
       (not_supported (Flags.cropping_mode (flags self))).
Proof.
  intros Hr Hs. apply String.eqb_neq in Hr, Hs.
  unfold apply_transform. rewrite Hr, Hs.
  split; [ reflexivity | apply mentions_middle ].
Qed.

End Dispatch.

Section Methods.

Variable pixel : Type.
Variable sample :
  string -> string -> bool -> Plane pixel -> Matrix -> Z * Z ->
  nat -> nat -> pixel.

(** C4, as amended: in resample mode [inverse_transform] returns a tensor
    whose spatial size is the [size] argument when one is given, and the
    crop size [self.size] of the operator when it is omitted. *)
Theorem C4_inverse_size (self : CenterCrop) (input : Tensor pixel)
    (t : list Matrix) (size_arg : option (Z * Z)) (kwargs : overrides)
    (B C H W : Z) :
  Flags.cropping_mode (flags self) = "resample"%string ->
  has_shape B C H W input ->
  length t = length input \/ length t = 1%nat ->
  let out_size := match size_arg with
                  | None => size self
                  | Some s => s
                  end in
  0 <= fst out_size -> 0 <= snd out_size ->
  exists out,
    inverse_transform sample self input (Some t) size_arg kwargs = Ok out
    /\ has_shape B C (fst out_size) (snd out_size) out.
Proof.
  intros Hmode Hshape Ht out_size Hh Hw.
  unfold inverse_transform. rewrite Hmode. cbn [String.eqb negb].
  change (match size_arg with None => size self | Some s => s end)
    with out_size.
  rewrite (surjective_pairing out_size).
  apply crop_by_transform_mat_shape with (H := H) (W := W); try assumption.
  now rewrite first_two_rows_length.
Qed.

(** C5, as amended: in slice mode [apply_transform] chooses between the
    shared slice and the per-sample loop by [same_on_batch] alone.  When
    [same_on_batch] holds it slices the whole batch once, at the
    coordinates of the first sample, whatever the coordinates of the other
    samples are; the per-sample loop runs only when it does not hold. *)
Theorem C5_slice_branches (self : CenterCrop) (input : Tensor pixel)
    (params : Params) (transform : option (list Matrix)) :
  Flags.cropping_mode (flags self) = "slice"%string ->
  apply_transform sample self input params transform
  = (if same_on_batch self then shared_slice input params
     else per_sample_loop self input params)
  /\ (forall q rest,
         same_on_batch self = true -> src params = q :: rest ->
         apply_transform sample self input params transform
         = Ok (slice_hw (snd (top_left q))
                        (Py.wrap64 (snd (bottom_left q) + 1))
                        (fst (top_left q))
                        (Py.wrap64 (fst (top_right q) + 1)) input)).
Proof.
  intros Hmode. split.
  - now apply apply_transform_slice.
  - intros q rest Hsame Hsrc.
    rewrite apply_transform_slice, Hsame by assumption.
    destruct params as [s d]. cbn [src] in Hsrc. subst s.
    apply shared_slice_head.
Qed.

(** C6, as amended: [compute_transformation] solves one transform for
    each sample of the corner tensors.  When they hold one corner set per
    image of the batch the result is the solved batch as it is; whenever
    a result is returned it has shape (B, 3, 3); and when the corner sets
    are the same for every sample (or there is only one) the result is B
    copies of the one matrix solved from them. *)
Theorem C6_transform_batch (input : Tensor pixel) (params : Params) :
  (length (src params) = length input ->
   compute_transformation input params
   = get_perspective_transform (src params) (dst params))
  /\ (forall ts,
         compute_transformation input params = Ok ts ->
         length ts = length input /\ Forall is_3x3 ts)
  /\ (forall s d n,
         params = mkParams (repeat s (S n)) (repeat d (S n)) ->
         S n = length input \/ n = 0%nat ->
         compute_transformation input params
         = (m <- Homography.solve s d ;; Ok (repeat m (length input)))).
Proof.
  unfold compute_transformation. split; [ | split ].
  - intros Hlen.
    destruct (get_perspective_transform (src params) (dst params))
      as [ms | e] eqn:E; [ | reflexivity ].
    apply get_perspective_transform_shape in E as [Hms _].
    cbn [bind]. rewrite <- Hlen, <- Hms. apply expand_same.
  - intros ts H. apply bind_Ok in H as (ms & Hms & H).
    apply get_perspective_transform_shape in Hms as [Hlen Hall].
    split.
    + apply expand_length in H. now apply Nat2Z.inj.
    + unfold Torch.expand in H.
      destruct (Z.of_nat (length ms) =? Z.of_nat (length input)).
      * injection H as <-. exact Hall.
      * destruct ms as [| m [| m' ms]]; try discriminate.
        destruct (0 <=? Z.of_nat (length input)); [ | discriminate ].
        injection H as <-. apply Forall_forall. intros x Hx.
        apply repeat_spec in Hx. subst x. now inversion Hall.
  - intros s d n -> Hn. cbn [src dst].
    rewrite get_perspective_transform_uniform.
    destruct (Homography.solve s d) as [m | e]; [ | reflexivity ].
    cbn [bind]. destruct Hn as [Hn | ->].
    + rewrite <- Hn. rewrite <- (repeat_length m (S n)) at 1.
      apply expand_same.
    + apply expand_one.
Qed.

(** C8: when the probability [p] is one the base class accepts (it lies
    between 0 and 1), the constructor raises at once, whatever its other
    arguments are, when [size] is neither an int nor a tuple, and the
    message names the class of the value; for an int [s] it stores the
    crop size (s, s) and for a tuple its first two components, in
    [self.size] and in the flags, provided the interpolation mode is a
    valid one. *)
Theorem C8_constructor_size (ac : bool) (rs : Resample.arg) (rt : bool)
    (p : Q) (kd : bool) (mode : string) :
  (0 <= p <= 1)%Q ->
  (forall c,
      __init__ (SizeOther c) ac rs rt p kd mode
      = Raise (Exception (invalid_size_type c))
      /\ mentions c (invalid_size_type c))
  /\ (forall s,
         __init__ (SizeInt s) ac rs rt p kd mode
         = (r <- Resample.get rs ;;
            Ok (mkCenterCrop (Base.mk 1 rt true p kd None) (s, s)
                  (Flags.mk r mode ac (s, s)))))
  /\ (forall a b rest,
         __init__ (SizeTuple (a :: b :: rest)) ac rs rt p kd mode
         = (r <- Resample.get rs ;;
            Ok (mkCenterCrop (Base.mk 1 rt true p kd None) (a, b)
                  (Flags.mk r mode ac (a, b))))).
Proof.
  intros Hp. unfold __init__.
  rewrite (base_init_probability rt true kd Hp). cbn [bind].
  split; [ | split ].
  - intros c. split; [ reflexivity | ].
    exists "Invalid size type. Expected (int, tuple(int, int). Got: <class '"%string,
      "'>."%string.
    reflexivity.
  - intros s. reflexivity.
  - intros a b rest. rewrite index_head.
    assert (Hb : Py.index (a :: b :: rest) 1 = Ok b).
    { unfold Py.index. cbn [length Z.ltb Z.compare].
      destruct (Z.of_nat (S (S (length rest))) <=? 1) eqn:E;
        [ apply Z.leb_le in E; lia | reflexivity ]. }
    rewrite Hb. reflexivity.
Qed.

(** C10: every operator the constructor returns, whatever the arguments,
    has [same_on_batch] set, element probability 1 and the argument [p] as
    its batch probability; so [apply_transform] never takes the branch of
    the per-sample loop, and in slice mode is the shared slice. *)
Theorem C10_same_on_batch (sz : size_arg) (ac : bool) (rs : Resample.arg)
    (rt : bool) (p : Q) (kd : bool) (mode : string) (self : CenterCrop) :
  __init__ sz ac rs rt p kd mode = Ok self ->
  same_on_batch self = true
  /\ Base.p (base self) = 1%Q
  /\ Base.p_batch (base self) = p
  /\ apply_branch self <> PerSampleLoop
  /\ (forall (input : Tensor pixel) params transform,
         mode = "slice"%string ->
         apply_transform sample self input params transform
         = shared_slice input params).
Proof.
  intros Hinit. pose proof Hinit as Hsame.
  apply init_same_on_batch in Hsame.
  apply init_inv in Hinit as (Hbase & Hmode & _).
  split; [ exact Hsame | ].
  split; [ now rewrite Hbase | ].
  split; [ now rewrite Hbase | ].
  split.
  - unfold apply_branch. rewrite Hsame.
    destruct (Flags.cropping_mode (flags self) =? "resample")%string;
      [ discriminate | ].
    destruct (Flags.cropping_mode (flags self) =? "slice")%string;
      discriminate.
  - intros input params transform ->.
    rewrite apply_transform_slice by assumption. now rewrite Hsame.
Qed.

End Methods.

(* ================================================================== *)
(** * Further properties of the methods *)

(** ** Slices at arbitrary bounds *)

Lemma clamp_range (len i : Z) : 0 <= len -> 0 <= Py.clamp len i <= len.
Proof.
  intros Hlen. unfold Py.clamp. destruct (i <? 0) eqn:E.
  - apply Z.ltb_lt in E. lia.
  - apply Z.ltb_ge in E. lia.
Qed.

Lemma slice_length_clamped {A : Type} (a b : Z) (l : list A) :
  Z.of_nat (length (Py.slice a b l)) = slice_len (Z.of_nat (length l)) a b.
Proof.
  unfold Py.slice, slice_len.
  pose proof (@clamp_range (Z.of_nat (length l)) a (Nat2Z.is_nonneg _)) as Ha.
  pose proof (@clamp_range (Z.of_nat (length l)) b (Nat2Z.is_nonneg _)) as Hb.
  rewrite length_firstn, length_skipn. lia.
Qed.

Lemma nth_error_slice {A : Type} (a b : Z) (l : list A) (i : nat) :
  0 <= a -> Z.of_nat i < b - a ->
  nth_error (Py.slice a b l) i = nth_error l (Z.to_nat a + i).
Proof.
  intros Ha Hi. unfold Py.slice.
  set (len := Z.of_nat (length l)).
  assert (Hca : Py.clamp len a = Z.min a len).
  { unfold Py.clamp. destruct (a <? 0) eqn:E; [ apply Z.ltb_lt in E; lia | easy ]. }
  assert (Hcb : Py.clamp len b = Z.min b len).
  { unfold Py.clamp. destruct (b <? 0) eqn:E; [ apply Z.ltb_lt in E; lia | easy ]. }
  rewrite Hca, Hcb, nth_error_firstn, nth_error_skipn.
  destruct (i <? Z.to_nat (Z.min b len - Z.min a len))%nat eqn:E.
  - apply Nat.ltb_lt in E. f_equal. lia.
  - apply Nat.ltb_ge in E. symmetry. apply nth_error_None. subst len. lia.
Qed.

Section SliceFacts.

Variable pixel : Type.
Variable sample :
  string -> string -> bool -> Plane pixel -> Matrix -> Z * Z ->
  nat -> nat -> pixel.

Lemma slice_hw_crop_image (q : Quad) (t : Tensor pixel) :
  slice_hw (snd (top_left q)) (Py.wrap64 (snd (bottom_left q) + 1))
           (fst (top_left q)) (Py.wrap64 (fst (top_right q) + 1)) t
  = map (crop_image q) t.
Proof. reflexivity. Qed.

Lemma pixel_at_slice_hw (y1 y2 x1 x2 : Z) (t : Tensor pixel) (b c i j : nat) :
  0 <= y1 -> 0 <= x1 -> Z.of_nat i < y2 - y1 -> Z.of_nat j < x2 - x1 ->
  pixel_at (slice_hw y1 y2 x1 x2 t) b c i j
  = pixel_at t b c (Z.to_nat y1 + i) (Z.to_nat x1 + j).
Proof.
  intros Hy Hx Hi Hj. unfold pixel_at, slice_hw.
  cbv delta [Tensor Image Plane] in *.
  rewrite nth_error_map. destruct (nth_error t b) as [im |]; [ | reflexivity ].
  cbn [option_map]. rewrite nth_error_map.
  destruct (nth_error im c) as [pl |]; [ | reflexivity ].
  cbn [option_map]. rewrite nth_error_map, nth_error_slice by assumption.
  destruct (nth_error pl (Z.to_nat y1 + i)) as [row |]; [ | reflexivity ].
  cbn [option_map]. now apply nth_error_slice.
Qed.

Lemma plane_shape_slice_clamped (H W y1 y2 x1 x2 : Z) (pl : Plane pixel) :
  plane_shapeb H W pl = true ->
  plane_shapeb (slice_len H y1 y2) (slice_len W x1 x2)
    (map (Py.slice x1 x2) (Py.slice y1 y2 pl)) = true.
Proof.
  unfold plane_shapeb. intros Hpl.
  apply andb_true_iff in Hpl as [Hlen Hrows]. apply Z.eqb_eq in Hlen.
  apply andb_true_iff. split.
  - apply Z.eqb_eq. rewrite length_map, slice_length_clamped. now rewrite Hlen.
  - rewrite forallb_map. apply forallb_slice.
    revert Hrows. apply forallb_impl. intros row Hrow.
    apply Z.eqb_eq in Hrow. apply Z.eqb_eq.
    rewrite slice_length_clamped. now rewrite Hrow.
Qed.

Lemma shape_slice_hw_clamped (B C H W y1 y2 x1 x2 : Z) (t : Tensor pixel) :
  has_shape B C H W t ->
  has_shape B C (slice_len H y1 y2) (slice_len W x1 x2)
    (slice_hw y1 y2 x1 x2 t).
Proof.
  unfold has_shape, shapeb, slice_hw. intros Ht.
  apply andb_true_iff in Ht as [Hlen Himgs].
  apply andb_true_iff. split; [ now rewrite length_map | ].
  rewrite forallb_map. revert Himgs. apply forallb_impl.
  intros im Him. unfold image_shapeb in *.
  apply andb_true_iff in Him as [HC Hpls].
  apply andb_true_iff. split; [ now rewrite length_map | ].
  rewrite forallb_map. revert Hpls. apply forallb_impl.
  intros pl. apply plane_shape_slice_clamped.
Qed.

(** X1: in slice mode with [same_on_batch] set, for a first box whose
    top-left corner has non-negative coordinates, the output is a pixel
    copy of the input: its pixel (b, c, i, j), for i and j within the
    box, is the input pixel (b, c, y1 + i, x1 + j), and is missing exactly
    when that input pixel is. *)
Theorem X1_slice_copies_pixels (self : CenterCrop) (input : Tensor pixel)
    (params : Params) (transform : option (list Matrix))
    (q : Quad) (rest : list Quad) :
  Flags.cropping_mode (flags self) = "slice"%string ->
  same_on_batch self = true ->
  src params = q :: rest ->
  0 <= snd (top_left q) -> 0 <= fst (top_left q) ->
  snd (bottom_left q) < 2 ^ 63 - 1 -> fst (top_right q) < 2 ^ 63 - 1 ->
  exists out,
    apply_transform sample self input params transform = Ok out
    /\ forall b c i j : nat,
        Z.of_nat i <= snd (bottom_left q) - snd (top_left q) ->
        Z.of_nat j <= fst (top_right q) - fst (top_left q) ->
        pixel_at out b c i j
        = pixel_at input b c (Z.to_nat (snd (top_left q)) + i)
                             (Z.to_nat (fst (top_left q)) + j).
Proof.
  intros Hmode Hsame Hsrc Hy Hx Hyb Hxr.
  rewrite apply_transform_slice, Hsame by assumption.
  destruct params as [s d]. cbn [src] in Hsrc. subst s.
  rewrite shared_slice_head. eexists. split; [ reflexivity | ].
  intros b c i j Hi Hj.
  apply pixel_at_slice_hw; try assumption.
  - rewrite wrap64_small; lia.
  - rewrite wrap64_small; lia.
Qed.

(** X2: in slice mode with [same_on_batch] set and at least one corner
    set, [apply_transform] returns for every coordinates, in or out of
    the image: the batch and channel sizes are kept and the height and
    width are those of a Python slice, clamped to the image. *)
Theorem X2_slice_clamps (self : CenterCrop) (input : Tensor pixel)
    (params : Params) (transform : option (list Matrix))
    (q : Quad) (rest : list Quad) (B C H W : Z) :
  Flags.cropping_mode (flags self) = "slice"%string ->
  same_on_batch self = true ->
  src params = q :: rest ->
  has_shape B C H W input ->
  exists out,
    apply_transform sample self input params transform = Ok out
    /\ has_shape B C
         (slice_len H (snd (top_left q)) (Py.wrap64 (snd (bottom_left q) + 1)))
         (slice_len W (fst (top_left q)) (Py.wrap64 (fst (top_right q) + 1)))
         out.
Proof.
  intros Hmode Hsame Hsrc Hshape.
  rewrite apply_transform_slice, Hsame by assumption.
  destruct params as [s d]. cbn [src] in Hsrc. subst s.
  rewrite shared_slice_head. eexists. split; [ reflexivity | ].
  now apply shape_slice_hw_clamped.
Qed.

End SliceFacts.

(** ** The per-sample loop *)

Lemma index_nth {A : Type} (l : list A) (i : nat) (d : A) :
  (i < length l)%nat -> Py.index l (Z.of_nat i) = Ok (nth i l d).
Proof.
  intros Hi. unfold Py.index.
  destruct (Z.of_nat i <? 0) eqn:E0; [ apply Z.ltb_lt in E0; lia | ].
  rewrite E0. cbn [orb].
  destruct (Z.of_nat (length l) <=? Z.of_nat i) eqn:E1;
    [ apply Z.leb_le in E1; lia | ].
  rewrite Nat2Z.id. now rewrite (nth_error_nth' l d Hi).
Qed.

Lemma slice_one {A : Type} (l : list A) (i : nat) (d : A) :
  (i < length l)%nat ->
  Py.slice (Z.of_nat i) (Z.of_nat i + 1) l = [nth i l d].
Proof.
  revert i. induction l as [| x l IH]; intros i Hi; [ simpl in Hi; lia | ].
  rewrite slice_inside by (simpl length in *; lia).
  replace (Z.to_nat (Z.of_nat i + 1 - Z.of_nat i)) with 1%nat by lia.
  rewrite Nat2Z.id. destruct i as [| i].
  - reflexivity.
  - cbn [skipn nth]. simpl in Hi.
    specialize (IH i ltac:(lia)).
    rewrite slice_inside in IH by lia.
    replace (Z.to_nat (Z.of_nat i + 1 - Z.of_nat i)) with 1%nat in IH by lia.
    now rewrite Nat2Z.id in IH.
Qed.

Lemma mapM_id {A : Type} (f : A -> result A) (l : list A) :
  Forall (fun x => f x = Ok x) l -> mapM f l = Ok l.
Proof.
  induction 1 as [| x l Hx _ IH]; [ reflexivity | ].
  cbn [mapM]. now rewrite Hx, IH.
Qed.

Lemma mapM_seq {B : Type} (f : Z -> result B) (g : nat -> B) :
  forall (n k : nat),
    (forall i, (k <= i < k + n)%nat -> f (Z.of_nat i) = Ok (g i)) ->
    mapM f (map Z.of_nat (seq k n)) = Ok (map g (seq k n)).
Proof.
  induction n as [| n IH]; intros k Hf; [ reflexivity | ].
  cbn [seq map mapM]. rewrite Hf by lia. cbn [bind].
  rewrite IH; [ reflexivity | ]. intros i Hi. apply Hf. lia.
Qed.

Lemma map_nth_combine {A B C : Type} (F : A -> B -> C) (d : A) (d' : B) :
  forall (l : list A) (l' : list B),
    length l' = length l ->
    map (fun i => F (nth i l d) (nth i l' d')) (seq 0 (length l))
    = map (fun p => F (fst p) (snd p)) (combine l l').
Proof.
  induction l as [| x l IH]; intros [| y l'] Hlen; try discriminate;
    [ reflexivity | ].
  cbn [length seq map combine nth fst snd]. f_equal.
  rewrite <- seq_shift, map_map. apply IH. now injection Hlen.
Qed.

Lemma broadcast_dim_same {A : Type} (n : Z) (l : list A) :
  Z.of_nat (length l) = n -> broadcast_dim n l = Ok l.
Proof.
  intros H. unfold broadcast_dim. now rewrite (proj2 (Z.eqb_eq _ _) H).
Qed.

Section Loop.

Variable pixel : Type.
Variable sample :
  string -> string -> bool -> Plane pixel -> Matrix -> Z * Z ->
  nat -> nat -> pixel.

Lemma broadcast_image_same (C h w : Z) (im : Image pixel) :
  image_shapeb C h w im = true -> broadcast_image C h w im = Ok im.
Proof.
  unfold image_shapeb, broadcast_image. intros H.
  apply andb_true_iff in H as [HC Hpls]. apply Z.eqb_eq in HC.
  rewrite mapM_id.
  - cbn [bind]. now apply broadcast_dim_same.
  - apply Forall_forall. intros pl Hpl.
    rewrite forallb_forall in Hpls. specialize (Hpls pl Hpl).
    unfold plane_shapeb in Hpls.
    apply andb_true_iff in Hpls as [Hh Hrows]. apply Z.eqb_eq in Hh.
    rewrite mapM_id.
    + cbn [bind]. now apply broadcast_dim_same.
    + apply Forall_forall. intros row Hrow.
      rewrite forallb_forall in Hrows. specialize (Hrows row Hrow).
      apply Z.eqb_eq in Hrows. now apply broadcast_dim_same.
Qed.

Lemma crop_image_shape (C H W h w : Z) (q : Quad) (im : Image pixel) :
  0 <= h -> 0 <= w -> H < 2 ^ 63 -> W < 2 ^ 63 ->
  box_fits H W h w q ->
  image_shapeb C H W im = true ->
  image_shapeb C h w (crop_image q im) = true.
Proof.
  intros Hh Hw HH HW (Hy1 & Hy2 & Hy3 & Hx1 & Hx2 & Hx3) Him.
  unfold image_shapeb, crop_image in *.
  apply andb_true_iff in Him as [HC Hpls].
  apply andb_true_iff. split; [ now rewrite length_map | ].
  rewrite forallb_map. revert Hpls. apply forallb_impl. intros pl Hpl.
  rewrite !wrap64_small by lia. rewrite Hy2, Hx2.
  pose proof (@plane_shape_slice pixel H W (snd (top_left q))
                (snd (top_left q) + h) (fst (top_left q))
                (fst (top_left q) + w) pl) as Hs.
  replace (snd (top_left q) + h - snd (top_left q)) with h in Hs by lia.
  replace (fst (top_left q) + w - fst (top_left q)) with w in Hs by lia.
  apply Hs; try lia. exact Hpl.
Qed.

Lemma slice_at_nth (s : list Quad) (i : nat) (t : Tensor pixel) (d : Quad) :
  (i < length s)%nat ->
  slice_at s (Z.of_nat i) t = Ok (map (crop_image (nth i s d)) t).
Proof.
  intros Hi. unfold slice_at, y1_of, y2_of, x1_of, x2_of.
  rewrite (index_nth _ (snd (top_left d))) by now rewrite length_map.
  rewrite (index_nth _ (Py.wrap64 (snd (bottom_left d) + 1)))
    by now rewrite length_map.
  rewrite (index_nth _ (fst (top_left d))) by now rewrite length_map.
  rewrite (index_nth _ (Py.wrap64 (fst (top_right d) + 1)))
    by now rewrite length_map.
  cbn [bind].
  rewrite (map_nth (fun q => snd (top_left q))).
  rewrite (map_nth (fun q => Py.wrap64 (snd (bottom_left q) + 1))).
  rewrite (map_nth (fun q => fst (top_left q))).
  rewrite (map_nth (fun q => Py.wrap64 (fst (top_right q) + 1))).
  reflexivity.
Qed.

Lemma per_sample_loop_crops (self : CenterCrop) (input : Tensor pixel)
    (params : Params) (B C H W h w : Z) :
  Flags.size (flags self) = (h, w) ->
  0 <= h -> 0 <= w -> H < 2 ^ 63 -> W < 2 ^ 63 ->
  has_shape B C H W input ->
  length (src params) = length input ->
  Forall (box_fits H W h w) (src params) ->
  per_sample_loop self input params
  = Ok (map (fun p => crop_image (snd p) (fst p))
            (combine input (src params))).
Proof.
  intros Hsize Hh Hw HH HW Hshape Hlen Hfit.
  unfold per_sample_loop. rewrite Hsize.
  destruct ((h <? 0) || (w <? 0)) eqn:E.
  { apply orb_true_iff in E as [E | E]; apply Z.ltb_lt in E; lia. }
  unfold Py.range. rewrite Nat2Z.id.
  set (d := mkQuad (0, 0) (0, 0) (0, 0) (0, 0)).
  rewrite (mapM_seq _ (fun i => crop_image (nth i (src params) d)
                                           (nth i input []))).
  - f_equal.
    apply (map_nth_combine (fun im q => crop_image q im) [] d input
             (src params) Hlen).
  - intros i Hi. cbn [Nat.add] in Hi.
    assert (Hi1 : (i < length input)%nat) by lia.
    assert (Hi2 : (i < length (src params))%nat) by lia.
    rewrite slice_one with (d := @nil (Plane pixel)) by exact Hi1.
    rewrite slice_at_nth with (d := d) by exact Hi2.
    cbn [bind map].
    apply broadcast_image_same.
    unfold has_shape, shapeb in Hshape.
    apply andb_true_iff in Hshape as [HB Himgs].
    rewrite forallb_forall in Himgs.
    assert (Hin : In (nth i input []) input) by (apply nth_In; exact Hi1).
    pose proof (Himgs _ Hin) as Him.
    assert (HC : Z.of_nat (length (hd [] input)) = C).
    { destruct input as [| im0 input']; [ simpl in Hi; lia | ].
      cbn [hd]. specialize (Himgs im0 (or_introl eq_refl)).
      unfold image_shapeb in Himgs.
      apply andb_true_iff in Himgs as [HC0 _]. now apply Z.eqb_eq. }
    rewrite HC.
    apply crop_image_shape with (H := H) (W := W); try assumption.
    rewrite Forall_forall in Hfit. apply Hfit. apply nth_In. exact Hi2.
Qed.

(** X3: with [same_on_batch] cleared, slice mode cuts every image of the
    batch at its own box, when there is one box per image and every box
    lies in the image and has the size of the flags. *)
Theorem X3_loop_crops_each_sample (self : CenterCrop) (input : Tensor pixel)
    (params : Params) (transform : option (list Matrix)) (B C H W h w : Z) :
  Flags.cropping_mode (flags self) = "slice"%string ->
  same_on_batch self = false ->
  Flags.size (flags self) = (h, w) ->
  0 <= h -> 0 <= w -> H < 2 ^ 63 -> W < 2 ^ 63 ->
  has_shape B C H W input ->
  length (src params) = length input ->
  Forall (box_fits H W h w) (src params) ->
  apply_transform sample self input params transform
  = Ok (map (fun p => crop_image (snd p) (fst p))
            (combine input (src params))).
Proof.
  intros Hmode Hsame Hsize Hh Hw HH HW Hshape Hlen Hfit.
  rewrite apply_transform_slice, Hsame by assumption.
  now apply per_sample_loop_crops with (B := B) (C := C) (H := H) (W := W)
                                       (h := h) (w := w).
Qed.

Lemma combine_repeat_map {A B C : Type} (F : A * B -> C) (y : B) :
  forall l : list A,
    map F (combine l (repeat y (length l))) = map (fun x => F (x, y)) l.
Proof.
  induction l as [| x l IH]; [ reflexivity | ].
  cbn [length repeat combine map]. now rewrite IH.
Qed.

(** X4: when every sample has the same box, of the size of the flags and
    inside the image, and the batch is not empty, the per-sample loop and
    the shared slice return the same tensor. *)
Theorem X4_branches_agree (self : CenterCrop) (input : Tensor pixel)
    (params : Params) (q : Quad) (B C H W h w : Z) :
  Flags.size (flags self) = (h, w) ->
  0 <= h -> 0 <= w -> H < 2 ^ 63 -> W < 2 ^ 63 ->
  has_shape B C H W input ->
  (1 <= length input)%nat ->
  src params = repeat q (length input) ->
  box_fits H W h w q ->
  per_sample_loop self input params = shared_slice input params.
Proof.
  intros Hsize Hh Hw HH HW Hshape HB Hsrc Hfit.
  rewrite per_sample_loop_crops with (B := B) (C := C) (H := H) (W := W)
                                     (h := h) (w := w); try assumption.
  - rewrite Hsrc, combine_repeat_map. cbn [fst snd].
    destruct params as [s d]. cbn [src] in Hsrc. subst s.
    destruct (length input) as [| n] eqn:E; [ lia | ].
    cbn [repeat]. rewrite shared_slice_head. reflexivity.
  - rewrite Hsrc. apply repeat_length.
  - rewrite Hsrc. apply Forall_forall. intros x Hx.
    apply repeat_spec in Hx. now subst x.
Qed.

End Loop.

(** ** Edges of the constructor and of the parameter generation *)

Lemma index_last_but_one {A : Type} (l : list A) (h w : A) :
  Py.index (l ++ [h; w]) (-2) = Ok h.
Proof.
  unfold Py.index. rewrite length_app. cbn [length Z.ltb Z.compare].
  set (j := -2 + Z.of_nat (length l + 2)).
  assert (Hj : j = Z.of_nat (length l)) by lia.
  destruct (j <? 0) eqn:E0; [ apply Z.ltb_lt in E0; lia | ].
  destruct (Z.of_nat (length l + 2) <=? j) eqn:E1;
    [ apply Z.leb_le in E1; lia | ].
  cbn [orb]. rewrite Hj, Nat2Z.id.
  rewrite nth_error_app2 by lia. now rewrite Nat.sub_diag.
Qed.

Lemma index_last {A : Type} (l : list A) (h w : A) :
  Py.index (l ++ [h; w]) (-1) = Ok w.
Proof.
  unfold Py.index. rewrite length_app. cbn [length Z.ltb Z.compare].
  set (j := -1 + Z.of_nat (length l + 2)).
  assert (Hj : j = Z.of_nat (length l + 1)) by lia.
  destruct (j <? 0) eqn:E0; [ apply Z.ltb_lt in E0; lia | ].
  destruct (Z.of_nat (length l + 2) <=? j) eqn:E1;
    [ apply Z.leb_le in E1; lia | ].
  cbn [orb]. rewrite Hj, Nat2Z.id.
  rewrite nth_error_app2 by lia.
  replace (length l + 1 - length l)%nat with 1%nat by lia. reflexivity.
Qed.

Lemma index_first {A : Type} (l : list A) (h w : A) :
  Py.index (l ++ [h; w]) 0 = Ok (hd h l).
Proof.
  destruct l as [| x l]; cbn [app hd]; apply index_head.
Qed.

(** X5: [generate_parameters] takes the height and width from the last
    two entries of the batch shape and the batch size from its first
    entry, whatever lies between (for a shape (H, W) the batch size is
    H); a shape with fewer than two entries raises IndexError. *)
Theorem X5_generate_parameters_shape (self : CenterCrop) (batch_shape : list Z) :
  (forall pre h w,
      batch_shape = pre ++ [h; w] ->
      generate_parameters self batch_shape
      = Ok (center_crop_generator (hd h pre) h w (size self)))
  /\ ((length batch_shape < 2)%nat ->
      generate_parameters self batch_shape
      = Raise (IndexError "index out of range")).
Proof.
  split.
  - intros pre h w ->. unfold generate_parameters.
    now rewrite index_first, index_last_but_one, index_last.
  - intros Hlen. destruct batch_shape as [| x [| y l]];
      [ reflexivity | reflexivity | simpl in Hlen; lia ].
Qed.

(** X6: when the probability [p] is one the base class accepts, the
    constructor raises IndexError for a [size] tuple of fewer than two
    components, whatever its other arguments are. *)
Theorem X6_short_tuple (t : list Z) (ac : bool) (rs : Resample.arg)
    (rt : bool) (p : Q) (kd : bool) (mode : string) :
  (0 <= p <= 1)%Q ->
  (length t < 2)%nat ->
  exists msg,
    __init__ (SizeTuple t) ac rs rt p kd mode = Raise (IndexError msg).
Proof.
  intros Hp Hlen. unfold __init__.
  rewrite (base_init_probability rt true kd Hp). cbn [bind].
  destruct t as [| a [| b t]];
    [ eexists; reflexivity | eexists; reflexivity | simpl in Hlen; lia ].
Qed.

(** X7: in every operator the constructor returns, the size in the flags
    is [self.size], the flags hold the cropping mode and the alignment
    given and the interpolation mode [Resample.get] returned, and
    [return_transform] and [keepdim] are the ones given. *)
Theorem X7_flags_agree (sz : size_arg) (ac : bool) (rs : Resample.arg)
    (rt : bool) (p : Q) (kd : bool) (mode : string) (self : CenterCrop) :
  __init__ sz ac rs rt p kd mode = Ok self ->
  Flags.size (flags self) = size self
  /\ Flags.cropping_mode (flags self) = mode
  /\ Flags.align_corners (flags self) = ac
  /\ Resample.get rs = Ok (Flags.resample (flags self))
  /\ Base.return_transform (base self) = rt
  /\ Base.keepdim (base self) = kd.
Proof.
  intros H. apply init_inv in H as (Hb & Hm & Hs & Ha & Hr).
  rewrite Hb. repeat split; assumption || reflexivity.
Qed.

Lemma expand_Ok_cases {A : Type} (n : Z) (t t' : list A) :
  Torch.expand n t = Ok t' ->
  Z.of_nat (length t) = n \/ length t = 1%nat.
Proof.
  unfold Torch.expand. destruct (Z.of_nat (length t) =? n) eqn:E.
  - intros _. left. now apply Z.eqb_eq.
  - destruct t as [| x [| y t]]; try discriminate. intros _. now right.
Qed.

Section Edges.

Variable pixel : Type.
Variable sample :
  string -> string -> bool -> Plane pixel -> Matrix -> Z * Z ->
  nat -> nat -> pixel.

(** X8: in slice mode with [same_on_batch] set, a parameter mapping whose
    [src] holds no corner set raises IndexError, whatever the input. *)
Theorem X8_slice_without_corners (self : CenterCrop) (input : Tensor pixel)
    (params : Params) (transform : option (list Matrix)) :
  Flags.cropping_mode (flags self) = "slice"%string ->
  same_on_batch self = true ->
  src params = [] ->
  apply_transform sample self input params transform
  = Raise (IndexError "index out of range").
Proof.
  intros Hmode Hsame Hsrc.
  rewrite apply_transform_slice, Hsame by assumption.
  unfold shared_slice, slice_at. now rewrite Hsrc.
Qed.

(** X9: in resample mode both [apply_transform] and [inverse_transform]
    raise TypeError when no transform is passed, whatever the other
    arguments are. *)
Theorem X9_resample_needs_transform (self : CenterCrop) (input : Tensor pixel)
    (params : Params) (size_arg : option (Z * Z)) (kwargs : overrides) :
  Flags.cropping_mode (flags self) = "resample"%string ->
  apply_transform sample self input params None
  = Raise (TypeError "'NoneType' object is not subscriptable")
  /\ inverse_transform sample self input None size_arg kwargs
     = Raise (TypeError "'NoneType' object is not subscriptable").
Proof.
  intros Hmode. unfold apply_transform, inverse_transform.
  rewrite Hmode. split; reflexivity.
Qed.

(** X10: in resample mode [inverse_transform] without a size and without
    keyword arguments is the same call of the warp kernel as
    [apply_transform] on the same input and transform: crop size, the
    interpolation and alignment of the flags, zero padding. *)
Theorem X10_inverse_defaults_to_forward (self : CenterCrop)
    (input : Tensor pixel) (params : Params)
    (transform : option (list Matrix)) :
  Flags.cropping_mode (flags self) = "resample"%string ->
  inverse_transform sample self input transform None no_overrides
  = apply_transform sample self input params transform.
Proof.
  intros Hmode. unfold apply_transform, inverse_transform.
  rewrite Hmode. reflexivity.
Qed.

(** X11: when the corner tensor holds neither one corner set nor as many
    as the batch has images, [compute_transformation] raises. *)
Theorem X11_transform_batch_mismatch (input : Tensor pixel) (params : Params) :
  length (src params) <> length input ->
  length (src params) <> 1%nat ->
  exists e, compute_transformation input params = Raise e.
Proof.
  intros Hne H1. unfold compute_transformation.
  destruct (get_perspective_transform (src params) (dst params))
    as [ms | e] eqn:E; [ | now exists e ].
  apply get_perspective_transform_shape in E as [Hlen _].
  cbn [bind].
  destruct (Torch.expand (Z.of_nat (length input)) ms) as [ts | e] eqn:Ex;
    [ | now exists e ].
  apply expand_Ok_cases in Ex as [H | H].
  - apply Nat2Z.inj in H. congruence.
  - congruence.
Qed.

End Edges.

(* ================================================================== *)
(** * Worked examples *)

(** The 4x4 image cropped to 2x2, in both modes. *)
Lemma C2_output_size_witness :
  (exists out,
      apply_transform blank_sample (example_op 2 "slice") image4
        (center_crop_generator 1 4 4 (2, 2)) None = Ok out
      /\ has_shape 1 1 2 2 out)
  /\ (exists out,
         apply_transform blank_sample (example_op 2 "resample") image4
           (center_crop_generator 1 4 4 (2, 2))
           (Some [translation (-1) (-1)]) = Ok out
         /\ has_shape 1 1 2 2 out).
Proof.
  split.
  - refine (proj1 (@C2_output_size Z blank_sample (SizeInt 2) true
                     (Resample.Name "BILINEAR") false 1%Q false "slice"
                     (example_op 2 "slice") image4
                     (center_crop_generator 1 4 4 (2, 2)) 1 1 4 4 2 2
                     _ _ _ _ _ _ _ _ _) eq_refl None);
      solve [ reflexivity | lia ].
  - refine (proj2 (@C2_output_size Z blank_sample (SizeInt 2) true
                     (Resample.Name "BILINEAR") false 1%Q false "resample"
                     (example_op 2 "resample") image4
                     (center_crop_generator 1 4 4 (2, 2)) 1 1 4 4 2 2
                     _ _ _ _ _ _ _ _ _) eq_refl [translation (-1) (-1)] _);
      solve [ reflexivity | lia | left; reflexivity ].
Defined.

(** The inverse of an operator in slice mode. *)
Lemma C3_inverse_needs_resample_witness :
  Flags.cropping_mode (flags (example_op 2 "slice")) <> "resample"%string
  /\ inverse_transform blank_sample (example_op 2 "slice") image4 None None
       no_overrides
     = Raise (NotImplementedError
                "`inverse` is only applicable for resample cropping mode. Got slice.").
Proof.
  split; [ discriminate | ].
  apply (@C3_inverse_needs_resample Z blank_sample (example_op 2 "slice")
           image4 None None no_overrides).
  discriminate.
Defined.

(** The inverse with and without a size. *)
Lemma C4_inverse_size_witness :
  (exists out,
      inverse_transform blank_sample (example_op 2 "resample") image4
        (Some [translation 1 1]) (Some (4, 4)) no_overrides = Ok out
      /\ has_shape 1 1 4 4 out)
  /\ (exists out,
         inverse_transform blank_sample (example_op 2 "resample") image4
           (Some [translation 1 1]) None no_overrides = Ok out
         /\ has_shape 1 1 2 2 out).
Proof.
  split.
  - apply (@C4_inverse_size Z blank_sample (example_op 2 "resample") image4
             [translation 1 1] (Some (4, 4)) no_overrides 1 1 4 4);
      solve [ reflexivity | simpl; lia | left; reflexivity ].
  - apply (@C4_inverse_size Z blank_sample (example_op 2 "resample") image4
             [translation 1 1] None no_overrides 1 1 4 4);
      solve [ reflexivity | simpl; lia | left; reflexivity ].
Defined.

(** The 4x4 image is cropped to 2x2 in resample mode; the inverse of the
    crop, called without a size, has the size of the crop and not the
    size of the image. *)
Lemma C4_counterexample :
  has_shape 1 1 4 4 image4
  /\ compute_transformation image4 (center_crop_generator 1 4 4 (2, 2))
     = Ok [translation (-1) (-1)]
  /\ apply_transform blank_sample (example_op 2 "resample") image4
       (center_crop_generator 1 4 4 (2, 2)) (Some [translation (-1) (-1)])
     = Ok blank2
  /\ inverse_transform blank_sample (example_op 2 "resample") blank2
       (Some [translation 1 1]) None no_overrides
     = Ok blank2
  /\ has_shape 1 1 2 2 blank2
  /\ ~ has_shape 1 1 4 4 blank2.
Proof.
  repeat split; try (vm_compute; reflexivity).
  unfold has_shape. vm_compute. discriminate.
Qed.

(** The shared slice on parameters that differ between the samples. *)
Lemma C5_slice_branches_witness :
  apply_transform blank_sample (example_op 2 "slice") two_images
    ragged_params None
  = Ok (slice_hw 0 2 0 2 two_images).
Proof.
  refine (proj2 (@C5_slice_branches Z blank_sample (example_op 2 "slice")
                   two_images ragged_params None eq_refl)
            (unit_box 0 0) [unit_box 1 1] eq_refl eq_refl).
Defined.

(** The two samples have different boxes, and the operator still slices
    both images at the box of the first: the second image is not cut at
    its own coordinates, as the per-sample loop would cut it. *)
Lemma C5_counterexample :
  x1_of (src ragged_params) = [0; 1]
  /\ y1_of (src ragged_params) = [0; 1]
  /\ new (SizeInt 2) "slice" = Ok (example_op 2 "slice")
  /\ apply_transform blank_sample (example_op 2 "slice") two_images
       ragged_params None
     = Ok [ [[[11; 12]; [14; 15]]]; [[[21; 22]; [24; 25]]] ]
  /\ per_sample_loop (example_op 2 "slice") two_images ragged_params
     = Ok [ [[[11; 12]; [14; 15]]]; [[[25; 26]; [28; 29]]] ].
Proof.
  repeat split; reflexivity.
Qed.

(** The two samples have different boxes, and the two matrices of the
    result differ. *)
Lemma C6_counterexample :
  length two_images = 2%nat
  /\ compute_transformation two_images ragged_params
     = Ok [translation 0 0; translation (-1) (-1)]
  /\ translation 0 0 <> translation (-1) (-1).
Proof.
  split; [ reflexivity | ].
  split; [ reflexivity | ].
  intros H. discriminate H.
Qed.

(** A mode the operator does not know. *)
Lemma C7_unknown_mode_witness :
  apply_transform blank_sample (example_op 2 "nearest") image4
    (center_crop_generator 1 4 4 (2, 2)) None
  = Raise (NotImplementedError "Not supported type: nearest.").
Proof.
  refine (proj1 (@C7_unknown_mode Z blank_sample (example_op 2 "nearest")
                   image4 (center_crop_generator 1 4 4 (2, 2)) None _ _));
    discriminate.
Defined.

(** The constructor on a list, with the default probability. *)
Lemma C8_constructor_size_witness :
  __init__ (SizeOther "list") true (Resample.Name "BILINEAR") false 1 false
    "slice"
  = Raise (Exception
             "Invalid size type. Expected (int, tuple(int, int). Got: <class 'list'>.")
  /\ new (SizeInt 3) "slice" = Ok (example_op 3 "slice").
Proof.
  pose proof (@C8_constructor_size true (Resample.Name "BILINEAR") false 1%Q
                false "slice") as H.
  destruct H as (Hother & Hint & _); [ split; discriminate | ].
  split; [ exact (proj1 (Hother "list"%string)) | exact (Hint 3) ].
Defined.

(** The operator [CenterCrop(2)]. *)
Lemma C10_same_on_batch_witness :
  new (SizeInt 2) "slice" = Ok (example_op 2 "slice")
  /\ same_on_batch (example_op 2 "slice") = true
  /\ @apply_branch (example_op 2 "slice") <> PerSampleLoop.
Proof.
  split; [ reflexivity | ].
  pose proof (@C10_same_on_batch Z blank_sample (SizeInt 2) true
                (Resample.Name "BILINEAR") false 1%Q false "slice"
                (example_op 2 "slice") eq_refl) as (Hs & _ & _ & Hb & _).
  split; assumption.
Defined.

(** ** Examples of the further properties *)

Lemma X1_slice_copies_pixels_witness :
  exists out,
    apply_transform blank_sample (example_op 2 "slice") image4
      (center_crop_generator 1 4 4 (2, 2)) None = Ok out
    /\ forall b c i j : nat,
        Z.of_nat i <= 1 -> Z.of_nat j <= 1 ->
        pixel_at out b c i j = pixel_at image4 b c (1 + i) (1 + j).
Proof.
  apply (@X1_slice_copies_pixels Z blank_sample (example_op 2 "slice") image4
           (center_crop_generator 1 4 4 (2, 2)) None
           (mkQuad (1, 1) (2, 1) (2, 2) (1, 2)) []);
    solve [ reflexivity | simpl; lia ].
Defined.

Lemma X2_slice_clamps_witness :
  exists out,
    apply_transform blank_sample (example_op 5 "slice") image4
      (mkParams [oversize_box] [unit_box 0 0]) None = Ok out
    /\ has_shape 1 1 2 2 out.
Proof.
  apply (@X2_slice_clamps Z blank_sample (example_op 5 "slice") image4
           (mkParams [oversize_box] [unit_box 0 0]) None
           oversize_box [] 1 1 4 4);
    reflexivity.
Defined.

Lemma X3_loop_crops_each_sample_witness :
  apply_transform blank_sample (per_sample_op 2 "slice") two_images
    ragged_params None
  = Ok [ [[[11; 12]; [14; 15]]]; [[[25; 26]; [28; 29]]] ].
Proof.
  apply (@X3_loop_crops_each_sample Z blank_sample (per_sample_op 2 "slice")
           two_images ragged_params None 2 1 3 3 2 2);
    try solve [ reflexivity | lia ].
  repeat constructor; simpl; lia.
Defined.

Lemma X4_branches_agree_witness :
  per_sample_loop (per_sample_op 2 "slice") two_images
    (mkParams [unit_box 1 0; unit_box 1 0] [unit_box 0 0; unit_box 0 0])
  = shared_slice two_images
      (mkParams [unit_box 1 0; unit_box 1 0] [unit_box 0 0; unit_box 0 0]).
Proof.
  apply (@X4_branches_agree Z (per_sample_op 2 "slice") two_images
           (mkParams [unit_box 1 0; unit_box 1 0] [unit_box 0 0; unit_box 0 0])
           (unit_box 1 0) 2 1 3 3 2 2);
    try solve [ reflexivity | simpl; lia ].
  repeat split; simpl; lia.
Defined.

Lemma X6_short_tuple_witness :
  exists msg,
    __init__ (SizeTuple [3]) true (Resample.Name "BILINEAR") false 1 false
      "slice"
    = Raise (IndexError msg).
Proof.
  apply (@X6_short_tuple [3] true (Resample.Name "BILINEAR") false 1%Q false
           "slice").
  - split; discriminate.
  - simpl. lia.
Defined.

Lemma X7_flags_agree_witness :
  Flags.size (flags (example_op 3 "resample")) = size (example_op 3 "resample").
Proof.
  exact (proj1 (@X7_flags_agree (SizeInt 3) true (Resample.Name "BILINEAR")
                  false 1%Q false "resample" (example_op 3 "resample")
                  eq_refl)).
Defined.

Lemma X8_slice_without_corners_witness :
  apply_transform blank_sample (example_op 2 "slice") image4
    (mkParams [] []) None
  = Raise (IndexError "index out of range").
Proof.
  apply (@X8_slice_without_corners Z blank_sample (example_op 2 "slice")
           image4 (mkParams [] []) None); reflexivity.
Defined.

Lemma X9_resample_needs_transform_witness :
  apply_transform blank_sample (example_op 2 "resample") image4
    (center_crop_generator 1 4 4 (2, 2)) None
  = Raise (TypeError "'NoneType' object is not subscriptable").
Proof.
  exact (proj1 (@X9_resample_needs_transform Z blank_sample
                  (example_op 2 "resample") image4
                  (center_crop_generator 1 4 4 (2, 2)) None no_overrides
                  eq_refl)).
Defined.

Lemma X10_inverse_defaults_to_forward_witness :
  inverse_transform blank_sample (example_op 2 "resample") image4
    (Some [translation (-1) (-1)]) None no_overrides
  = apply_transform blank_sample (example_op 2 "resample") image4
      (center_crop_generator 1 4 4 (2, 2)) (Some [translation (-1) (-1)]).
Proof.
  apply (@X10_inverse_defaults_to_forward Z blank_sample
           (example_op 2 "resample") image4
           (center_crop_generator 1 4 4 (2, 2))
           (Some [translation (-1) (-1)])).
  reflexivity.
Defined.

Lemma X11_transform_batch_mismatch_witness :
  exists e,
    compute_transformation two_images
      (center_crop_generator 3 3 3 (2, 2)) = Raise e.
Proof.
  apply (@X11_transform_batch_mismatch Z two_images
           (center_crop_generator 3 3 3 (2, 2))); discriminate.
Defined.
